(** * hashcache: a disk-backed memoising decorator

    Shallow embedding of [hashcache/hashcache.py] and the properties of
    its key derivation and of its record store.

    The Python module is a decorator factory [hashcache(directory)] whose
    inner [wrapper] derives a file name from the call (pickle, then MD5),
    looks the file up, and otherwise calls the wrapped function and writes
    its pickled result.  The embedding keeps that shape: [hashcache]
    validates the directory, [wrapper] is the body of the inner function,
    written in a small state-and-exception monad over a world made of the
    files of the cache directory, the state of the wrapped function and a
    trace of the observable steps. *)

From Stdlib Require Import ZArith List Bool Lia.
From Stdlib Require Import Strings.Ascii Strings.String Strings.Byte.
From stdpp Require Import gmap strings list fin_maps.

Import ListNotations.
Local Open Scope string_scope.

(** ** Bytes *)

Abbreviation bytes := (list byte).

Definition Z_of_byte (b : byte) : Z := Z.of_N (Byte.to_N b).

Definition byte_of_Z (z : Z) : byte :=
  match Byte.of_N (Z.to_N (z mod 256)) with
  | Some b => b
  | None => x00
  end.

(** [n] as [k] little-endian bytes (the low [8 * k] bits of [n]). *)
Fixpoint le_bytes (k : nat) (n : Z) : bytes :=
  match k with
  | O => []
  | S k' => byte_of_Z n :: le_bytes k' (Z.shiftr n 8)
  end.

(** The unsigned integer whose little-endian bytes are [bs]. *)
Fixpoint le_value (bs : bytes) : Z :=
  match bs with
  | [] => 0
  | b :: bs' => Z_of_byte b + 256 * le_value bs'
  end.

(** ** hashlib.md5 (RFC 1321) *)

Module Hashlib.
Local Open Scope Z_scope.

Definition mask32 : Z := 0xffffffff.
Definition add32 (x y : Z) : Z := Z.land (x + y) mask32.
Definition not32 (x : Z) : Z := Z.lxor x mask32.
Definition rotl32 (x s : Z) : Z :=
  Z.land (Z.lor (Z.shiftl x s) (Z.shiftr x (32 - s))) mask32.

Definition shift_amounts : list Z :=
  [7; 12; 17; 22; 7; 12; 17; 22; 7; 12; 17; 22; 7; 12; 17; 22;
   5;  9; 14; 20; 5;  9; 14; 20; 5;  9; 14; 20; 5;  9; 14; 20;
   4; 11; 16; 23; 4; 11; 16; 23; 4; 11; 16; 23; 4; 11; 16; 23;
   6; 10; 15; 21; 6; 10; 15; 21; 6; 10; 15; 21; 6; 10; 15; 21].

Definition sine_table : list Z :=
  [0xd76aa478; 0xe8c7b756; 0x242070db; 0xc1bdceee;
   0xf57c0faf; 0x4787c62a; 0xa8304613; 0xfd469501;
   0x698098d8; 0x8b44f7af; 0xffff5bb1; 0x895cd7be;
   0x6b901122; 0xfd987193; 0xa679438e; 0x49b40821;
   0xf61e2562; 0xc040b340; 0x265e5a51; 0xe9b6c7aa;
   0xd62f105d; 0x02441453; 0xd8a1e681; 0xe7d3fbc8;
   0x21e1cde6; 0xc33707d6; 0xf4d50d87; 0x455a14ed;
   0xa9e3e905; 0xfcefa3f8; 0x676f02d9; 0x8d2a4c8a;
   0xfffa3942; 0x8771f681; 0x6d9d6122; 0xfde5380c;
   0xa4beea44; 0x4bdecfa9; 0xf6bb4b60; 0xbebfbc70;
   0x289b7ec6; 0xeaa127fa; 0xd4ef3085; 0x04881d05;
   0xd9d4d039; 0xe6db99e5; 0x1fa27cf8; 0xc4ac5665;
   0xf4292244; 0x432aff97; 0xab9423a7; 0xfc93a039;
   0x655b59c3; 0x8f0ccc92; 0xffeff47d; 0x85845dd1;
   0x6fa87e4f; 0xfe2ce6e0; 0xa3014314; 0x4e0811a1;
   0xf7537e82; 0xbd3af235; 0x2ad7d2bb; 0xeb86d391].

(** The four chaining words A, B, C, D. *)
Record chain := Chain { wA : Z; wB : Z; wC : Z; wD : Z }.

Definition initial_chain : chain :=
  Chain 0x67452301 0xefcdab89 0x98badcfe 0x10325476.

(** One of the 64 steps on a block given as sixteen 32-bit words. *)
Definition step (block : list Z) (st : chain) (i : nat) : chain :=
  let '(Chain a b c d) := st in
  let iz := Z.of_nat i in
  let '(f, g) :=
    if iz <? 16 then (Z.lor (Z.land b c) (Z.land (not32 b) d), iz)
    else if iz <? 32 then
      (Z.lor (Z.land d b) (Z.land (not32 d) c), (5 * iz + 1) mod 16)
    else if iz <? 48 then (Z.lxor b (Z.lxor c d), (3 * iz + 5) mod 16)
    else (Z.lxor c (Z.lor b (not32 d)), (7 * iz) mod 16) in
  let f' :=
    add32 (add32 (add32 f a) (nth i sine_table 0))
          (nth (Z.to_nat g) block 0) in
  Chain d (add32 b (rotl32 f' (nth i shift_amounts 0))) b c.

Fixpoint words_of (n : nat) (bs : bytes) : list Z :=
  match n with
  | O => []
  | S n' => le_value (firstn 4 bs) :: words_of n' (skipn 4 bs)
  end.

Definition compress (st : chain) (block : bytes) : chain :=
  let r := fold_left (step (words_of 16 block)) (seq 0 64) st in
  Chain (add32 (wA st) (wA r)) (add32 (wB st) (wB r))
        (add32 (wC st) (wC r)) (add32 (wD st) (wD r)).

(** Append the bit 1, zeros up to 56 mod 64, and the bit length as a
    64-bit little-endian integer. *)
Definition pad (msg : bytes) : bytes :=
  let len := Z.of_nat (length msg) in
  let zeros := Z.to_nat ((55 - len) mod 64) in
  msg ++ x80 :: repeat x00 zeros ++ le_bytes 8 (8 * len).

Fixpoint absorb (n : nat) (st : chain) (data : bytes) : chain :=
  match n with
  | O => st
  | S n' => absorb n' (compress st (firstn 64 data)) (skipn 64 data)
  end.

Definition md5 (msg : bytes) : bytes :=
  let data := pad msg in
  let r := absorb (Nat.div (length data) 64) initial_chain data in
  le_bytes 4 (wA r) ++ le_bytes 4 (wB r) ++
  le_bytes 4 (wC r) ++ le_bytes 4 (wD r).

Definition hex_digit (n : Z) : ascii :=
  nth (Z.to_nat n) (list_ascii_of_string "0123456789abcdef") "0"%char.

(** [hashlib.md5(...).hexdigest()]: two lowercase hex digits a byte. *)
Fixpoint hex (bs : bytes) : string :=
  match bs with
  | [] => EmptyString
  | b :: bs' =>
      String (hex_digit (Z_of_byte b / 16))
        (String (hex_digit (Z_of_byte b mod 16)) (hex bs'))
  end.

Definition hexdigest (msg : bytes) : string := hex (md5 msg).
End Hashlib.

(** ** Python values

    The objects that travel through the decorator: arguments, keyword
    values, the nonce and results.  A dict keeps its items in insertion
    order, as Python's does.  [VObject] stands for any other object (a
    lock, an open file, ...), known only by an identity. *)

#[local] Unset Elimination Schemes.
Inductive value : Type :=
| VNone
| VBool (b : bool)
| VInt (n : Z)
| VStr (s : string)
| VTuple (items : list value)
| VList (items : list value)
| VDict (items : list (value * value))
| VObject (id : positive).
#[local] Set Elimination Schemes.

(** Truth value testing, as [if x:] does. *)
Definition truthy (v : value) : bool :=
  match v with
  | VNone => false
  | VBool b => b
  | VInt n => negb (n =? 0)%Z
  | VStr s => negb (String.eqb s "")
  | VTuple items | VList items => negb (Nat.eqb (length items) 0)
  | VDict items => negb (Nat.eqb (length items) 0)
  | VObject _ => true
  end.

(** The dict that [**kwargs] builds: string keys, in the order supplied. *)
Definition kwargs_dict (kwargs : list (string * value)) : value :=
  VDict (map (fun kv => (VStr (fst kv), snd kv)) kwargs).

(** ** Exceptions *)

Inductive exn_class : Type :=
| EOFError
| PickleError
| PicklingError
| UnpicklingError
| ImportError
| ModuleNotFoundError
| FileNotFoundError
| TypeError
| ValueError
| UnicodeDecodeError
| AttributeError
| IndexError
| OverflowError
| RuntimeError.

#[global] Instance exn_class_eq_dec : EqDecision exn_class.
Proof. solve_decision. Defined.

Record exn : Type := Exn { exn_type : exn_class; exn_message : string }.

(** The direct base class inside this set of classes, if any. *)
Definition base_class (c : exn_class) : option exn_class :=
  match c with
  | PicklingError | UnpicklingError => Some PickleError
  | ModuleNotFoundError => Some ImportError
  | UnicodeDecodeError => Some ValueError
  | _ => None
  end.

Definition issubclass (c d : exn_class) : bool :=
  bool_decide (c = d) || bool_decide (base_class c = Some d).

(** [except (c1, c2, ...)] matches [e]. *)
Definition caught_by (classes : list exn_class) (e : exn) : bool :=
  existsb (issubclass (exn_type e)) classes.

Inductive result (A : Type) : Type :=
| Returns (a : A)
| Raises (e : exn).
Arguments Returns {A} a.
Arguments Raises {A} e.

(** ** The interpreter's serializers

    [pickle] and [dill] are not part of the repository; the decorator is
    verified against any behaviour of theirs, taken as functions of the
    value (which sub-objects of an argument are one shared object is not
    recorded in a [value]; module [Graph] has the objects with their
    identities and what pickle makes of sharing).  A pickler either produces
    the whole byte string, or raises after having flushed some prefix to
    its file ([pickle.dump] writes to the file it was given; what had
    reached the file before the error stays there). *)

Inductive pickled : Type :=
| Pickled (data : bytes)
| PickleFails (flushed : bytes) (e : exn).

Record runtime : Type := Runtime {
  (** [pickle.dumps] / [pickle.dump] *)
  pickler : value -> pickled;
  (** [pickle.load] on the content of a file opened for reading *)
  unpickler : bytes -> result value;
  (** [dill.dumps], when the dill package is installed *)
  dill : option (value -> pickled)
}.

(** [pickler.dumps(v)]: the bytes, or the error. *)
Definition dumps (p : value -> pickled) (v : value) : result bytes :=
  match p v with
  | Pickled data => Returns data
  | PickleFails _ e => Raises e
  end.

(** ** os.path.join on POSIX, two components *)

Fixpoint ends_with_sep (s : string) : bool :=
  match s with
  | EmptyString => false
  | String c EmptyString => Ascii.eqb c "/"
  | String _ rest => ends_with_sep rest
  end.

Definition os_path_join (a b : string) : string :=
  if String.prefix "/" b then b
  else if String.eqb a "" || ends_with_sep a then a ++ b
  else a ++ "/" ++ b.

(** ** The world the wrapper runs in *)

Inductive event : Type :=
| Exists (path : string)
| Read (path : string)
| Write (path : string) (data : bytes)
| Warning (message : string)
| Call (args : list value) (kwargs : list (string * value)).

Section Decorator.
(** State of the wrapped function (a counter, a random generator, ...);
    the function may read and change it, and nothing else. *)
Context {U : Type}.

Record world : Type := World {
  files : gmap string bytes;   (* regular files, by path *)
  user : U;
  trace : list event
}.

(** Computations that read and change the world and may raise. *)
Definition M (A : Type) : Type := world -> result A * world.

Definition ret {A} (a : A) : M A := fun w => (Returns a, w).
Definition raise {A} (e : exn) : M A := fun w => (Raises e, w).
Definition bind {A B} (m : M A) (k : A -> M B) : M B :=
  fun w =>
    match m w with
    | (Returns a, w') => k a w'
    | (Raises e, w') => (Raises e, w')
    end.
Definition lift {A} (r : result A) : M A := fun w => (r, w).

Notation "'let*' x ':=' m 'in' k" := (bind m (fun x => k))
  (at level 10, x name, m at level 100, k at level 200).
Notation "m ';;;' k" := (bind m (fun _ => k))
  (at level 100, k at level 200, right associativity).

Definition emit (ev : event) : M unit :=
  fun w => (Returns tt, World (files w) (user w) (trace w ++ [ev])).

(** [try: body / except classes: handler]; the handler starts from the
    world the body left. *)
Definition try_except {A} (body : M A) (classes : list exn_class)
    (handler : M A) : M A :=
  fun w =>
    match body w with
    | (Raises e, w') =>
        if caught_by classes e then handler w' else (Raises e, w')
    | r => r
    end.

(** [with lock: body].  One thread runs the wrapper, so the lock is free
    when it is taken; leaving the block, normally or by an exception,
    releases it. *)
Definition with_lock {A} (body : M A) : M A := body.

Definition os_path_exists (path : string) : M bool :=
  fun w =>
    (Returns (bool_decide (is_Some (files w !! path))),
     World (files w) (user w) (trace w ++ [Exists path])).

(** [open(path, "rb")] followed by reading the whole file. *)
Definition open_rb (path : string) : M bytes :=
  fun w =>
    match files w !! path with
    | Some data =>
        (Returns data, World (files w) (user w) (trace w ++ [Read path]))
    | None => (Raises (Exn FileNotFoundError path), w)
    end.

(** What is in the file once the [open(path, "wb")] block is left. *)
Definition write_file (path : string) (data : bytes) : M unit :=
  fun w =>
    (Returns tt,
     World (<[path := data]> (files w)) (user w)
           (trace w ++ [Write path data])).

Definition logging_warning (message : string) : M unit :=
  emit (Warning message).

Variable rt : runtime.
Variable directory : string.
Variable func_name : string.
Variable func :
  list value -> list (string * value) -> U -> result value * U.

(** Line 71: the wrapped function applied to the positional and the
    keyword arguments. *)
Definition call_func (args : list value) (kwargs : list (string * value))
    : M value :=
  fun w =>
    let '(r, u') := func args kwargs (user w) in
    (r, World (files w) u' (trace w ++ [Call args kwargs])).

(** Line 46: the Call Signature, [[func.__name__, args, kwargs,
    cache_nonce]]. *)
Definition signature (args : list value) (kwargs : list (string * value))
    (cache_nonce : value) : value :=
  VList [VStr func_name; VTuple args; kwargs_dict kwargs; cache_nonce].

(** Lines 48-55: the bytes of the key. *)
Definition serialize_cache_keys (use_dill : value) (cache_keys : value)
    : M bytes :=
  if truthy use_dill then
    try_except
      (match dill rt with
       | None => raise (Exn ModuleNotFoundError "No module named 'dill'")
       | Some dill_pickler => lift (dumps dill_pickler cache_keys)
       end)
      [ImportError]
      (raise (Exn ImportError
        "Dill is not installed. Please install it to use the use_dill option."))
  else lift (dumps (pickler rt) cache_keys).

(** Lines 58-60: the file of the record whose key is [key]. *)
Definition record_path (key : string) : string :=
  let filename := key ++ ".pkl" in
  os_path_join directory filename.

(** Lines 57-60. *)
Definition cache_path_of (cache_keys : bytes) : string :=
  record_path (Hashlib.hexdigest cache_keys).

Definition corrupted_message (cache_path : string) : string :=
  "Cache file " ++ cache_path ++ " is corrupted or empty. Recomputing result.".

(** The last conjunct of line 62 and lines 63-69: the test that the
    file exists and the body of the first [if].  [Some result] is the
    [return result] inside it; [None] means control reaches line 71. *)
Definition lookup (cache_path : string) : M (option value) :=
  let* present := os_path_exists cache_path in
  if present then
    with_lock
      (try_except
         (let* data := open_rb cache_path in
          let* result := lift (unpickler rt data) in
          ret (Some result))
         [EOFError; PickleError]
         (logging_warning (corrupted_message cache_path) ;;;
          ret None))
  else ret None.

(** Lines 72-74: [open(cache_path, "wb")] truncates or creates the file,
    then [pickle.dump] writes into it. *)
Definition store (cache_path : string) (result : value) : M unit :=
  with_lock
    (match pickler rt result with
     | Pickled data => write_file cache_path data
     | PickleFails flushed e => write_file cache_path flushed ;;; raise e
     end).

(** Lines 71-76: execute the function, store the result, return it. *)
Definition recompute (cache_path : string) (args : list value)
    (kwargs : list (string * value)) : M value :=
  let* result := call_func args kwargs in
  store cache_path result ;;;
  ret result.

(** The body of [wrapper], lines 46-76.  The condition of line 62 is
    an [and] chain: the file system is asked only when [use_cache] is
    true and [refresh_cache] is false. *)
Definition wrapper (args : list value)
    (use_cache refresh_cache cache_nonce use_dill : value)
    (kwargs : list (string * value)) : M value :=
  let cache_keys := signature args kwargs cache_nonce in
  let* cache_keys := serialize_cache_keys use_dill cache_keys in
  let cache_path := cache_path_of cache_keys in
  let* cached :=
    (if truthy use_cache && negb (truthy refresh_cache)
     then lookup cache_path else ret None) in
  match cached with
  | Some result => ret result
  | None => recompute cache_path args kwargs
  end.

(** Lines 57-76 on their own: what [wrapper] does once the bytes of the
    key are known.  [wrapper] is the key derivation of lines 46-55
    followed by this (lemma [wrapper_from_cache_keys]). *)
Definition from_cache_keys (cache_keys : bytes) (args : list value)
    (use_cache refresh_cache : value) (kwargs : list (string * value))
    : M value :=
  let cache_path := cache_path_of cache_keys in
  let* cached :=
    (if truthy use_cache && negb (truthy refresh_cache)
     then lookup cache_path else ret None) in
  match cached with
  | Some result => ret result
  | None => recompute cache_path args kwargs
  end.

(** Line 44: binding a call with positional arguments [args] and
    keyword arguments [keywords] to the signature of [wrapper]: the
    four keyword-only parameters [use_cache=True], [refresh_cache=False],
    [cache_nonce=None], [use_dill=False] take their keywords or their
    defaults, and [kwargs] takes every other keyword, in order. *)
Definition control_options : list string :=
  ["use_cache"; "refresh_cache"; "cache_nonce"; "use_dill"].

Definition is_control_option (name : string) : bool :=
  existsb (String.eqb name) control_options.

Fixpoint keyword (name : string) (default : value)
    (keywords : list (string * value)) : value :=
  match keywords with
  | [] => default
  | (k, v) :: rest =>
      if String.eqb k name then v else keyword name default rest
  end.

Definition remaining_kwargs (keywords : list (string * value))
    : list (string * value) :=
  List.filter (fun kv => negb (is_control_option (fst kv))) keywords.

Definition call_wrapper (args : list value)
    (keywords : list (string * value)) : M value :=
  wrapper args
    (keyword "use_cache" (VBool true) keywords)
    (keyword "refresh_cache" (VBool false) keywords)
    (keyword "cache_nonce" VNone keywords)
    (keyword "use_dill" (VBool false) keywords)
    (remaining_kwargs keywords).
End Decorator.

(** Lines 36-39: [hashcache(directory)] refuses a directory that is not
    a string and otherwise yields the decorator for that directory.
    ([os.makedirs] creates the directory; directories are not part of the
    file model, which holds the regular files only.) *)
Definition hashcache (directory : value) : result string :=
  match directory with
  | VStr d => Returns d
  | _ =>
      Raises (Exn TypeError
        "directory must be a string representing the path to the cache directory. Did you forget to call the decorator?")
  end.

(** ** A CPython runtime to run the decorator on

    CPython's [pickle] (protocol 4, the default since Python 3.8) on the
    values of [value], taken as trees whose nodes are distinct objects, so
    that no memo reference is ever emitted.  A [VStr] holds the UTF-8
    bytes of the text.  A [VObject] is pickled as a lock object is: it
    cannot.  The pickler writes one frame, as CPython does for payloads
    under 64 KiB; the unpickler knows the opcodes the pickler emits, and
    answers any other byte as an invalid load key.  The package dill is
    not installed. *)

Module Pickle.
Local Open Scope Z_scope.
Local Open Scope list_scope.

Definition error {A} (c : exn_class) (message : string) : result A :=
  Raises (Exn c message).

(** *** Pickler *)

(** Number of bytes of the LONG1/LONG4 form of [n]. *)
Definition long_size (n : Z) : nat :=
  let nbytes := Z.to_nat ((Z.log2 (Z.abs n) + 1) / 8 + 1) in
  let data := le_bytes nbytes n in
  if (n <? 0) && (1 <? Z.of_nat nbytes)
     && (Z_of_byte (nth (nbytes - 1) data x00) =? 255)
     && (128 <=? Z_of_byte (nth (nbytes - 2) data x00))
  then (nbytes - 1)%nat else nbytes.

Definition save_long (n : Z) : bytes :=
  if (0 <=? n) && (n <? 256) then x4b :: le_bytes 1 n
  else if (0 <=? n) && (n <? 65536) then x4d :: le_bytes 2 n
  else if (- 2 ^ 31 <=? n) && (n <? 2 ^ 31) then x4a :: le_bytes 4 n
  else
    let nbytes := long_size n in
    if Z.of_nat nbytes <? 256
    then x8a :: le_bytes 1 (Z.of_nat nbytes) ++ le_bytes nbytes n
    else x8b :: le_bytes 4 (Z.of_nat nbytes) ++ le_bytes nbytes n.

Definition save_unicode (s : string) : bytes :=
  let encoded := list_byte_of_string s in
  let size := Z.of_nat (length encoded) in
  (if size <? 256 then x8c :: le_bytes 1 size
   else if size <? 2 ^ 32 then x58 :: le_bytes 4 size
   else x8d :: le_bytes 8 size) ++ encoded ++ [x94].

Fixpoint batches (fuel : nat) (parts : list bytes) : list (list bytes) :=
  match fuel, parts with
  | O, _ | _, [] => []
  | S fuel', _ => firstn 1000 parts :: batches fuel' (skipn 1000 parts)
  end.

(** Items after EMPTY_LIST or EMPTY_DICT: one alone with [one], else in
    batches of 1000 between MARK and [many]. *)
Definition batch (one many : byte) (parts : list bytes) : bytes :=
  match parts with
  | [] => []
  | [p] => p ++ [one]
  | _ =>
      List.concat
        (map (fun b => x28 :: List.concat b ++ [many])
             (batches (length parts) parts))
  end.

Definition save_tuple (parts : list bytes) : bytes :=
  match parts with
  | [] => [x29]
  | [_] => List.concat parts ++ [x85; x94]
  | [_; _] => List.concat parts ++ [x86; x94]
  | [_; _; _] => List.concat parts ++ [x87; x94]
  | _ => x28 :: List.concat parts ++ [x74; x94]
  end.

(** [None] when an object inside cannot be pickled. *)
Fixpoint save (v : value) : option (list byte) :=
  match v with
  | VNone => Some [x4e]
  | VBool true => Some [x88]
  | VBool false => Some [x89]
  | VInt n => Some (save_long n)
  | VStr s => Some (save_unicode s)
  | VTuple items =>
      option_map save_tuple
        ((fix save_all (l : list value) : option (list bytes) :=
            match l with
            | [] => Some []
            | x :: l' =>
                match save x, save_all l' with
                | Some p, Some ps => Some (p :: ps)
                | _, _ => None
                end
            end) items)
  | VList items =>
      option_map (fun parts => x5d :: x94 :: batch x61 x65 parts)
        ((fix save_all (l : list value) : option (list bytes) :=
            match l with
            | [] => Some []
            | x :: l' =>
                match save x, save_all l' with
                | Some p, Some ps => Some (p :: ps)
                | _, _ => None
                end
            end) items)
  | VDict items =>
      option_map (fun parts => x7d :: x94 :: batch x73 x75 parts)
        ((fix save_all (l : list (value * value)) : option (list bytes) :=
            match l with
            | [] => Some []
            | (k, x) :: l' =>
                match save k, save x, save_all l' with
                | Some pk, Some px, Some ps => Some ((pk ++ px) :: ps)
                | _, _, _ => None
                end
            end) items)
  | VObject _ => None
  end.

Definition dump (v : value) : pickled :=
  match save v with
  | None =>
      PickleFails [] (Exn TypeError "cannot pickle '_thread.lock' object")
  | Some body =>
      let payload := body ++ [x2e] in
      let size := Z.of_nat (length payload) in
      Pickled (x80 :: x04 ::
               (if size <? 4 then payload
                else x95 :: le_bytes 8 size ++ payload))
  end.

(** *** Unpickler *)

(** Well-formed UTF-8, lone surrogates allowed (the "surrogatepass"
    error handler). *)
Definition continuation (b : byte) : bool :=
  (128 <=? Z_of_byte b) && (Z_of_byte b <? 192).

Fixpoint utf8 (fuel : nat) (data : bytes) : bool :=
  match fuel, data with
  | _, [] => true
  | O, _ => false
  | S fuel', b :: rest =>
      let c := Z_of_byte b in
      if c <? 128 then utf8 fuel' rest
      else if (194 <=? c) && (c <? 224) then
        match rest with
        | b1 :: rest' => continuation b1 && utf8 fuel' rest'
        | _ => false
        end
      else if (224 <=? c) && (c <? 240) then
        match rest with
        | b1 :: b2 :: rest' =>
            continuation b1 && continuation b2
            && implb (c =? 224) (160 <=? Z_of_byte b1)
            && utf8 fuel' rest'
        | _ => false
        end
      else if (240 <=? c) && (c <? 245) then
        match rest with
        | b1 :: b2 :: b3 :: rest' =>
            continuation b1 && continuation b2 && continuation b3
            && implb (c =? 240) (144 <=? Z_of_byte b1)
            && implb (c =? 244) (Z_of_byte b1 <? 144)
            && utf8 fuel' rest'
        | _ => false
        end
      else false
  end.

(** What [x == y] answers on two keys, where [True == 1]. *)
Fixpoint key_eqb (x y : value) : bool :=
  match x, y with
  | VNone, VNone => true
  | VBool a, VBool b => Bool.eqb a b
  | VBool a, VInt n | VInt n, VBool a => n =? (if a then 1 else 0)
  | VInt n, VInt m => n =? m
  | VStr s, VStr t => String.eqb s t
  | VTuple xs, VTuple ys =>
      (fix all2 (l : list value) (r : list value) : bool :=
         match l, r with
         | [], [] => true
         | a :: l', b :: r' => key_eqb a b && all2 l' r'
         | _, _ => false
         end) xs ys
  | VObject i, VObject j => Pos.eqb i j
  | _, _ => false
  end.

Fixpoint hashable (v : value) : bool :=
  match v with
  | VTuple items => forallb hashable items
  | VList _ | VDict _ => false
  | _ => true
  end.

(** [d[k] = x] on the items of a dict. *)
Fixpoint dict_set (items : list (value * value)) (k x : value)
    : list (value * value) :=
  match items with
  | [] => [(k, x)]
  | (k', x') :: rest =>
      if key_eqb k' k then (k', x) :: rest
      else (k', x') :: dict_set rest k x
  end.

(** [target[k] = x] *)
Definition set_item (target k x : value) : result value :=
  match target with
  | VDict items =>
      if hashable k then Returns (VDict (dict_set items k x))
      else error TypeError "unhashable type"
  | VList items =>
      match k with
      | VInt _ | VBool _ =>
          let i := match k with
                   | VInt n => n
                   | VBool b => if b then 1 else 0
                   | _ => 0
                   end in
          let len := Z.of_nat (length items) in
          if (- len <=? i) && (i <? len)
          then Returns (VList (<[Z.to_nat (i mod len) := x]> items))
          else error IndexError "list assignment index out of range"
      | _ => error TypeError "list indices must be integers or slices"
      end
  | _ => error TypeError "object does not support item assignment"
  end.

Fixpoint set_items (target : value) (flat : list value) : result value :=
  match flat with
  | k :: x :: rest =>
      match set_item target k x with
      | Returns target' => set_items target' rest
      | Raises e => Raises e
      end
  | _ => Returns target
  end.

(** [target.extend(items)], through [append] as the unpickler does. *)
Definition extend (target : value) (items : list value) : result value :=
  match items, target with
  | [], _ => Returns target
  | _, VList old => Returns (VList (old ++ items))
  | _, _ => error AttributeError "object has no attribute 'append'"
  end.

(** The unpickler's stack: objects and marks. *)
Inductive entry : Type :=
| Obj (v : value)
| Mark.

(** The objects above the topmost mark, oldest first, and the stack
    under that mark. *)
Fixpoint pop_mark (stack : list entry) (above : list value)
    : option (list value * list entry) :=
  match stack with
  | [] => None
  | Mark :: below => Some (above, below)
  | Obj v :: below => pop_mark below (v :: above)
  end.

Definition split (n : nat) (data : bytes) : option (bytes * bytes) :=
  if (n <=? length data)%nat then Some (firstn n data, skipn n data)
  else None.

Definition signed (size : nat) (data : bytes) : Z :=
  let v := le_value data in
  if (size =? 0)%nat then 0
  else if 2 ^ (8 * Z.of_nat size - 1) <=? v
       then v - 2 ^ (8 * Z.of_nat size) else v.

Definition truncated {A} : result A :=
  error UnpicklingError "pickle data was truncated".
Definition underflow {A} : result A :=
  error UnpicklingError "unpickling stack underflow".
Definition no_mark {A} : result A :=
  error UnpicklingError "could not find MARK".

(** One opcode at a time; every opcode takes at least its own byte, so
    [length data + 1] steps are enough for [data]. *)
Fixpoint run (fuel : nat) (data : bytes) (stack : list entry)
    : result value :=
  match fuel, data with
  | O, _ | _, [] => error EOFError "Ran out of input"
  | S fuel', op :: rest =>
      let push v rest' := run fuel' rest' (Obj v :: stack) in
      (* an operand of [n] bytes *)
      let operand n k :=
        match split n rest with
        | Some (arg, rest') => k arg rest'
        | None => truncated
        end in
      (* a length of [n] bytes, then a text of that length *)
      let unicode n :=
        operand n (fun size rest' =>
          match split (Z.to_nat (le_value size)) rest' with
          | Some (text, rest'') =>
              if utf8 (length text) text
              then run fuel' rest'' (Obj (VStr (string_of_list_byte text))
                                     :: stack)
              else error UnicodeDecodeError
                     "'utf-8' codec can't decode byte"
          | None => truncated
          end) in
      match op with
      | x80 (* PROTO *) =>
          operand 1%nat (fun v rest' =>
            if le_value v <=? 5 then run fuel' rest' stack
            else error ValueError "unsupported pickle protocol")
      | x95 (* FRAME *) =>
          operand 8%nat (fun size rest' =>
            if 2 ^ 63 <=? le_value size
            then error OverflowError "FRAME length exceeds system's maximum"
            else if le_value size <=? Z.of_nat (length rest')
                 then run fuel' rest' stack else truncated)
      | x2e (* STOP *) =>
          match stack with
          | Obj v :: _ => Returns v
          | Mark :: _ => error UnpicklingError "unexpected MARK found"
          | [] => underflow
          end
      | x4e (* NONE *) => push VNone rest
      | x88 (* NEWTRUE *) => push (VBool true) rest
      | x89 (* NEWFALSE *) => push (VBool false) rest
      | x4b (* BININT1 *) =>
          operand 1%nat (fun a rest' => push (VInt (le_value a)) rest')
      | x4d (* BININT2 *) =>
          operand 2%nat (fun a rest' => push (VInt (le_value a)) rest')
      | x4a (* BININT *) =>
          operand 4%nat (fun a rest' => push (VInt (signed 4 a)) rest')
      | x8a (* LONG1 *) =>
          operand 1%nat (fun size rest' =>
            let n := Z.to_nat (le_value size) in
            match split n rest' with
            | Some (a, rest'') => push (VInt (signed n a)) rest''
            | None => truncated
            end)
      | x8c (* SHORT_BINUNICODE *) => unicode 1%nat
      | x58 (* BINUNICODE *) => unicode 4%nat
      | x28 (* MARK *) => run fuel' rest (Mark :: stack)
      | x94 (* MEMOIZE *) =>
          match stack with
          | Obj _ :: _ => run fuel' rest stack
          | _ => underflow
          end
      | x29 (* EMPTY_TUPLE *) => push (VTuple []) rest
      | x5d (* EMPTY_LIST *) => push (VList []) rest
      | x7d (* EMPTY_DICT *) => push (VDict []) rest
      | x85 (* TUPLE1 *) =>
          match stack with
          | Obj a :: below => run fuel' rest (Obj (VTuple [a]) :: below)
          | _ => underflow
          end
      | x86 (* TUPLE2 *) =>
          match stack with
          | Obj b :: Obj a :: below =>
              run fuel' rest (Obj (VTuple [a; b]) :: below)
          | _ => underflow
          end
      | x87 (* TUPLE3 *) =>
          match stack with
          | Obj c :: Obj b :: Obj a :: below =>
              run fuel' rest (Obj (VTuple [a; b; c]) :: below)
          | _ => underflow
          end
      | x74 (* TUPLE *) =>
          match pop_mark stack [] with
          | Some (items, below) =>
              run fuel' rest (Obj (VTuple items) :: below)
          | None => no_mark
          end
      | x61 (* APPEND *) =>
          match stack with
          | Obj x :: Obj target :: below =>
              match extend target [x] with
              | Returns target' => run fuel' rest (Obj target' :: below)
              | Raises e => Raises e
              end
          | _ => underflow
          end
      | x65 (* APPENDS *) =>
          match pop_mark stack [] with
          | Some (items, Obj target :: below) =>
              match extend target items with
              | Returns target' => run fuel' rest (Obj target' :: below)
              | Raises e => Raises e
              end
          | Some _ => underflow
          | None => no_mark
          end
      | x73 (* SETITEM *) =>
          match stack with
          | Obj x :: Obj k :: Obj target :: below =>
              match set_item target k x with
              | Returns target' => run fuel' rest (Obj target' :: below)
              | Raises e => Raises e
              end
          | _ => underflow
          end
      | x75 (* SETITEMS *) =>
          match pop_mark stack [] with
          | Some (flat, Obj target :: below) =>
              if Nat.even (length flat) then
                match set_items target flat with
                | Returns target' => run fuel' rest (Obj target' :: below)
                | Raises e => Raises e
                end
              else error UnpicklingError
                     "odd number of items for SETITEMS"
          | Some _ => underflow
          | None => no_mark
          end
      | _ => error UnpicklingError "invalid load key"
      end
  end.

Definition load (data : bytes) : result value :=
  run (S (length data)) data [].
End Pickle.

(** CPython with [pickle] and without dill. *)
Definition cpython : runtime :=
  Runtime Pickle.dump Pickle.load None.

(** ** Objects with identity

    [pickle] memoizes by object identity: the second time it meets an
    object it writes a reference to the first.  An [object] is a Python
    value with the identity ([id(obj)]) of every node that pickle may
    memoize; two nodes with the same identity are the same object, and
    what stands under the second one is not looked at.  [None], the
    booleans and the integers are written out wherever they occur. *)

Module Graph.
Local Open Scope Z_scope.
Local Open Scope list_scope.

#[local] Unset Elimination Schemes.
Inductive object : Type :=
| ONone
| OBool (b : bool)
| OInt (n : Z)
| OStr (id : positive) (s : string)
| OTuple (id : positive) (items : list object)
| OList (id : positive) (items : list object)
| ODict (id : positive) (items : list (object * object))
| OOpaque (id : positive).
#[local] Set Elimination Schemes.

(** The value of an object, identities forgotten. *)
Fixpoint erase (o : object) : value :=
  match o with
  | ONone => VNone
  | OBool b => VBool b
  | OInt n => VInt n
  | OStr _ s => VStr s
  | OTuple _ items => VTuple (map erase items)
  | OList _ items => VList (map erase items)
  | ODict _ items => VDict (map (fun kx => (erase (fst kx), erase (snd kx))) items)
  | OOpaque id => VObject id
  end.

(** The identities in an object, in the order pickle meets them. *)
Fixpoint identities (o : object) : list positive :=
  match o with
  | ONone | OBool _ | OInt _ => []
  | OStr id _ | OOpaque id => [id]
  | OTuple id items | OList id items => id :: flat_map identities items
  | ODict id items =>
      id :: flat_map (fun kx => identities (fst kx) ++ identities (snd kx)) items
  end.


(** The memo: the identities memoized so far, the first at index 0. *)
Fixpoint memo_get (id : positive) (memo : list positive) : option nat :=
  match memo with
  | [] => None
  | x :: rest =>
      if Pos.eqb x id then Some O else option_map S (memo_get id rest)
  end.

(** BINGET, or LONG_BINGET from index 256 on. *)
Definition get (index : nat) : bytes :=
  let i := Z.of_nat index in
  if i <? 256 then x68 :: le_bytes 1 i else x6a :: le_bytes 4 i.

(** A tuple found in the memo once its items are written is recursive:
    the items are popped again (POP each up to three, POP_MARK beyond)
    and a reference is written. *)
Definition pop_tuple (parts : list bytes) (index : nat) : bytes :=
  match parts with
  | [] | [_] | [_; _] | [_; _; _] =>
      List.concat parts ++ repeat x30 (length parts) ++ get index
  | _ => x28 :: List.concat parts ++ [x31] ++ get index
  end.

(** [save]: atoms first, then the memo, then by type.  Strings, lists
    and dicts are memoized when their opcode is written, tuples after
    their items, the empty tuple never.  [None] when an object cannot be
    pickled. *)
Fixpoint save (o : object) (memo : list positive)
    : option (bytes * list positive) :=
  let save_all :=
    fix save_all (l : list object) (memo : list positive)
        : option (list bytes * list positive) :=
      match l with
      | [] => Some ([], memo)
      | x :: l' =>
          match save x memo with
          | Some (p, memo1) =>
              match save_all l' memo1 with
              | Some (ps, memo2) => Some (p :: ps, memo2)
              | None => None
              end
          | None => None
          end
      end in
  let save_items :=
    fix save_items (l : list (object * object)) (memo : list positive)
        : option (list bytes * list positive) :=
      match l with
      | [] => Some ([], memo)
      | (k, x) :: l' =>
          match save k memo with
          | Some (pk, memo1) =>
              match save x memo1 with
              | Some (px, memo2) =>
                  match save_items l' memo2 with
                  | Some (ps, memo3) => Some ((pk ++ px) :: ps, memo3)
                  | None => None
                  end
              | None => None
              end
          | None => None
          end
      end in
  match o with
  | ONone => Some ([x4e], memo)
  | OBool true => Some ([x88], memo)
  | OBool false => Some ([x89], memo)
  | OInt n => Some (Pickle.save_long n, memo)
  | OStr id s =>
      match memo_get id memo with
      | Some i => Some (get i, memo)
      | None => Some (Pickle.save_unicode s, memo ++ [id])
      end
  | OTuple id items =>
      match memo_get id memo with
      | Some i => Some (get i, memo)
      | None =>
          match items with
          | [] => Some ([x29], memo)
          | _ =>
              match save_all items memo with
              | Some (parts, memo') =>
                  match memo_get id memo' with
                  | Some i => Some (pop_tuple parts i, memo')
                  | None => Some (Pickle.save_tuple parts, memo' ++ [id])
                  end
              | None => None
              end
          end
      end
  | OList id items =>
      match memo_get id memo with
      | Some i => Some (get i, memo)
      | None =>
          match save_all items (memo ++ [id]) with
          | Some (parts, memo') =>
              Some (x5d :: x94 :: Pickle.batch x61 x65 parts, memo')
          | None => None
          end
      end
  | ODict id items =>
      match memo_get id memo with
      | Some i => Some (get i, memo)
      | None =>
          match save_items items (memo ++ [id]) with
          | Some (parts, memo') =>
              Some (x7d :: x94 :: Pickle.batch x73 x75 parts, memo')
          | None => None
          end
      end
  | OOpaque id =>
      match memo_get id memo with
      | Some i => Some (get i, memo)
      | None => None
      end
  end.

(** [pickle.dumps(obj)]: a fresh memo, protocol 4, one frame. *)
Definition dump (o : object) : pickled :=
  match save o [] with
  | None =>
      PickleFails [] (Exn TypeError "cannot pickle '_thread.lock' object")
  | Some (body, _) =>
      let payload := body ++ [x2e] in
      let size := Z.of_nat (length payload) in
      Pickled (x80 :: x04 ::
               (if size <? 4 then payload
                else x95 :: le_bytes 8 size ++ payload))
  end.

(** The items of a tuple or list, and of a dict, one after the other
    through the memo: the inner loops of [save], by name. *)
Definition save_all : list object -> list positive ->
    option (list bytes * list positive) :=
  fix save_all (l : list object) (memo : list positive) :=
    match l with
    | [] => Some ([], memo)
    | x :: l' =>
        match save x memo with
        | Some (p, memo1) =>
            match save_all l' memo1 with
            | Some (ps, memo2) => Some (p :: ps, memo2)
            | None => None
            end
        | None => None
        end
    end.

Definition save_items : list (object * object) -> list positive ->
    option (list bytes * list positive) :=
  fix save_items (l : list (object * object)) (memo : list positive) :=
    match l with
    | [] => Some ([], memo)
    | (k, x) :: l' =>
        match save k memo with
        | Some (pk, memo1) =>
            match save x memo1 with
            | Some (px, memo2) =>
                match save_items l' memo2 with
                | Some (ps, memo3) => Some ((pk ++ px) :: ps, memo3)
                | None => None
                end
            | None => None
            end
        | None => None
        end
    end.

(** The inner loops of [Pickle.save], by name. *)
Definition tree_save_all : list value -> option (list bytes) :=
  fix save_all (l : list value) :=
    match l with
    | [] => Some []
    | x :: l' =>
        match Pickle.save x, save_all l' with
        | Some p, Some ps => Some (p :: ps)
        | _, _ => None
        end
    end.

Definition tree_save_items : list (value * value) -> option (list bytes) :=
  fix save_all (l : list (value * value)) :=
    match l with
    | [] => Some []
    | (k, x) :: l' =>
        match Pickle.save k, Pickle.save x, save_all l' with
        | Some pk, Some px, Some ps => Some ((pk ++ px) :: ps)
        | _, _, _ => None
        end
    end.

(** Induction on objects, the items of a container first. *)
Section object_induction.
Variable P : object -> Prop.
Hypothesis HNone : P ONone.
Hypothesis HBool : forall b, P (OBool b).
Hypothesis HInt : forall n, P (OInt n).
Hypothesis HStr : forall id s, P (OStr id s).
Hypothesis HTuple : forall id items, Forall P items -> P (OTuple id items).
Hypothesis HList : forall id items, Forall P items -> P (OList id items).
Hypothesis HDict :
  forall id items,
    Forall (fun kx => P (fst kx) /\ P (snd kx)) items -> P (ODict id items).
Hypothesis HOpaque : forall id, P (OOpaque id).

Fixpoint object_induction (o : object) : P o :=
  match o with
  | ONone => HNone
  | OBool b => HBool b
  | OInt n => HInt n
  | OStr id s => HStr id s
  | OTuple id items =>
      HTuple id items
        ((fix all (l : list object) : Forall P l :=
            match l with
            | [] => @List.Forall_nil _ P
            | x :: l' => @List.Forall_cons _ P x l' (object_induction x) (all l')
            end) items)
  | OList id items =>
      HList id items
        ((fix all (l : list object) : Forall P l :=
            match l with
            | [] => @List.Forall_nil _ P
            | x :: l' => @List.Forall_cons _ P x l' (object_induction x) (all l')
            end) items)
  | ODict id items =>
      HDict id items
        ((fix all (l : list (object * object))
            : Forall (fun kx => P (fst kx) /\ P (snd kx)) l :=
            match l with
            | [] => @List.Forall_nil _ _
            | kx :: l' =>
                @List.Forall_cons _ _ kx l'
                  (conj (object_induction (fst kx)) (object_induction (snd kx)))
                  (all l')
            end) items)
  | OOpaque id => HOpaque id
  end.
End object_induction.

(** [pickler.dumps(obj)]: the bytes, or the error. *)
Definition dumps (p : object -> pickled) (o : object) : result bytes :=
  match p o with
  | Pickled data => Returns data
  | PickleFails _ e => Raises e
  end.

(** Line 46 with the objects it holds: a new list of [func.__name__],
    the tuple of the positional arguments, the dict of the keyword
    arguments, whose keys are strings, in the order supplied, and the
    nonce.  [list_id], [tuple_id] and [dict_id] are the addresses of the
    three containers the call makes. *)
Definition keyword_items (kwargs : list (positive * string * object))
    : list (object * object) :=
  map (fun kx => (OStr (fst (fst kx)) (snd (fst kx)), snd kx)) kwargs.

Definition cache_keys (list_id tuple_id dict_id : positive)
    (name : positive * string) (args : list object)
    (kwargs : list (positive * string * object)) (cache_nonce : object)
    : object :=
  OList list_id
    [OStr (fst name) (snd name); OTuple tuple_id args;
     ODict dict_id (keyword_items kwargs); cache_nonce].


(** The keyword arguments as [remaining_kwargs] gives them to the
    wrapper. *)
Definition erase_kwargs (kwargs : list (positive * string * object))
    : list (string * value) :=
  map (fun kx => (snd (fst kx), erase (snd kx))) kwargs.

(** Lines 48-55 on objects: [dill_dumps] is [dill.dumps] where the
    package is installed; the [try] covers the import and the call. *)
Definition serialize_cache_keys (dill_dumps : option (object -> pickled))
    (use_dill : value) (cache_keys : object) : result bytes :=
  if truthy use_dill then
    match
      match dill_dumps with
      | None => Raises (Exn ModuleNotFoundError "No module named 'dill'")
      | Some dill_dumps => dumps dill_dumps cache_keys
      end
    with
    | Raises e =>
        if caught_by [ImportError] e then
          Raises (Exn ImportError
            "Dill is not installed. Please install it to use the use_dill option.")
        else Raises e
    | Returns data => Returns data
    end
  else dumps dump cache_keys.



(** No identity of [ids] occurs twice or is in the memo; and what
    [save] then gives: the bytes of the value, and a longer memo. *)
Definition unshared (memo : list positive) (ids : list positive) : Prop :=
  NoDup ids /\ forall i, i ∈ ids -> i ∉ memo.

Definition as_tree (memo : list positive) (ids : list positive)
    (saved : option (bytes * list positive)) (tree : option bytes) : Prop :=
  exists extra,
    (forall i, i ∈ extra -> i ∈ ids)
    /\ saved = option_map (fun b => (b, memo ++ extra)) tree.

Definition parts_as_tree (memo : list positive) (ids : list positive)
    (saved : option (list bytes * list positive))
    (tree : option (list bytes)) : Prop :=
  exists extra,
    (forall i, i ∈ extra -> i ∈ ids)
    /\ saved = option_map (fun ps => (ps, memo ++ extra)) tree.
End Graph.

(** ** A wrapped function to run the decorator on

    [square(x) = x * x], with a counter of its executions as its state.
    A call that does not fit its one parameter raises before the body
    runs. *)
Definition square (args : list value) (kwargs : list (string * value))
    (count : nat) : result value * nat :=
  match args, kwargs with
  | [VInt x], [] => (Returns (VInt (x * x)), S count)
  | _, _ => (Raises (Exn TypeError "square() got unexpected arguments"), count)
  end.

(** A function that returns an object that cannot be pickled. *)
Definition make_lock (args : list value) (kwargs : list (string * value))
    (count : nat) : result value * nat :=
  (Returns (VObject 1), S count).

(** [@hashcache()] applied to [square]: the default directory. *)
Definition cached_square
    : list value -> list (string * value) -> M (U := nat) value :=
  call_wrapper cpython "/tmp/hashcache" "square" square.

Definition cached_make_lock
    : list value -> list (string * value) -> M (U := nat) value :=
  call_wrapper cpython "/tmp/hashcache" "make_lock" make_lock.

(** An empty cache directory and a function not yet executed. *)
Definition fresh : world (U := nat) := World ∅ 0%nat [].

(** Number of executions of the wrapped function in a trace. *)
Definition invocations (t : list event) : nat :=
  length (List.filter (fun ev => match ev with Call _ _ => true | _ => false end) t).

(** The events that a run from [w] to [w'] added. *)
Definition events_since {U} (w w' : world (U := U)) : list event :=
  skipn (length (trace w)) (trace w').


(** The record file of [square(4)] in the default directory, the bytes
    of [pickle.dumps(['square', (4,), {}, None])] that it is the digest
    of, and the pickles of 16 and of 99. *)
Definition square_4_path : string :=
  "/tmp/hashcache/d92e7d5fd5f75ffc222c2bcc992a13a8.pkl".
Definition square_4_keys : bytes :=
  [x80; x04; x95; x15; x00; x00; x00; x00; x00; x00; x00;
   x5d; x94; x28; x8c; x06; x73; x71; x75; x61; x72; x65; x94;
   x4b; x04; x85; x94; x7d; x94; x4e; x65; x2e].
Definition pickle_16 : bytes := [x80; x04; x4b; x10; x2e].
Definition pickle_99 : bytes := [x80; x04; x4b; x63; x2e].

(** The cache directory with a record for [square(4)] that says 99. *)
Definition stale : world (U := nat) :=
  World {[ square_4_path := pickle_99 ]} 0%nat [].

(** The same with the record of 16 after one bit of its second byte
    flipped on disk, and with the record cut to no bytes. *)
Definition bit_flipped : world (U := nat) :=
  World {[ square_4_path := [x80; x84; x4b; x10; x2e] ]} 0%nat [].
Definition zero_bytes : world (U := nat) :=
  World {[ square_4_path := [] ]} 0%nat [].

(** What one call may do: test, read and write the one file [path],
    log, and execute the function on [args] and [kwargs]. *)
Definition touches (path : string) (args : list value)
    (kwargs : list (string * value)) (ev : event) : Prop :=
  match ev with
  | Exists p | Read p | Write p _ => p = path
  | Warning _ => True
  | Call a k => a = args /\ k = kwargs
  end.




(** Number of record writes in a trace. *)
Definition stores (t : list event) : nat :=
  length (List.filter (fun ev => match ev with Write _ _ => true | _ => false end) t).

(** CPython where [import dill] succeeds.  Only the key is ever derived
    with dill (line 51); its [dumps] is taken here to give the bytes that
    pickle gives on the values [Pickle.dump] encodes. *)
Definition cpython_with_dill : runtime :=
  Runtime Pickle.dump Pickle.load (Some Pickle.dump).

(** * Properties *)

(** ** MD5 and the sample pickle against known answers *)

Example md5_empty :
  Hashlib.hexdigest [] = "d41d8cd98f00b204e9800998ecf8427e".
Proof. vm_compute. reflexivity. Qed.

Example md5_abc :
  Hashlib.hexdigest (list_byte_of_string "abc")
  = "900150983cd24fb0d6963f7d28e17f72".
Proof. vm_compute. reflexivity. Qed.

Example md5_two_blocks :
  Hashlib.hexdigest (list_byte_of_string
    "12345678901234567890123456789012345678901234567890123456789012345678901234567890")
  = "57edf4a22be3c955ac49da2e2107b67a".
Proof. vm_compute. reflexivity. Qed.

(** [pickle.dumps(['f', (), {'a': 1, 'b': 2}, None])] *)
Example pickle_signature :
  Pickle.dump
    (VList [VStr "f"; VTuple []; kwargs_dict [("a", VInt 1); ("b", VInt 2)];
            VNone])
  = Pickled
      [x80; x04; x95; x1b; x00; x00; x00; x00; x00; x00; x00;
       x5d; x94; x28; x8c; x01; x66; x94; x29; x7d; x94; x28;
       x8c; x01; x61; x94; x4b; x01; x8c; x01; x62; x94; x4b; x02; x75;
       x4e; x65; x2e].
Proof. vm_compute. reflexivity. Qed.

Example unpickle_nested :
  let v := VList [VStr "f"; VTuple [VInt (-7); VBool true];
                  VDict [(VStr "a", VInt 70000); (VInt 2, VList [VNone])];
                  VInt (2 ^ 70)] in
  match Pickle.dump v with
  | Pickled data => Pickle.load data = Returns v
  | PickleFails _ _ => False
  end.
Proof. vm_compute. reflexivity. Qed.

Example unpickle_empty_file :
  Pickle.load [] = Raises (Exn EOFError "Ran out of input").
Proof. reflexivity. Qed.

Lemma le_bytes_length k n : length (le_bytes k n) = k.
Proof. revert n. induction k; intros; simpl; [reflexivity | now rewrite IHk]. Qed.

Lemma md5_length msg : length (Hashlib.md5 msg) = 16%nat.
Proof.
  unfold Hashlib.md5. cbv zeta.
  rewrite !length_app, !le_bytes_length. reflexivity.
Qed.

Lemma hex_length bs : String.length (Hashlib.hex bs) = (2 * length bs)%nat.
Proof. induction bs; simpl; [reflexivity | rewrite IHbs; lia]. Qed.

Lemma hexdigest_length msg : String.length (Hashlib.hexdigest msg) = 32%nat.
Proof. unfold Hashlib.hexdigest. now rewrite hex_length, md5_length. Qed.

Section Properties.
Context {U : Type}.
Variable rt : runtime.
Variable directory : string.
Variable func_name : string.
Variable func :
  list value -> list (string * value) -> U -> result value * U.

(** The section fixes the decorated function, so the statements write
    [wrapper args ...] for the wrapper of that function; these tactics
    unfold the definitions behind the short names. *)
Ltac unfold_wrapper := unfold wrapper.
Ltac unfold_call_wrapper := unfold call_wrapper.
Ltac unfold_recompute := unfold recompute.
Ltac unfold_cache_path_of := unfold cache_path_of.

Local Abbreviation world := (world (U := U)).
Local Abbreviation wrapper := (wrapper rt directory func_name func).
Local Abbreviation call_wrapper :=
  (call_wrapper rt directory func_name func).
Local Abbreviation signature := (signature func_name).
Local Abbreviation cache_path_of := (cache_path_of directory).
Local Abbreviation recompute := (recompute rt func).
#[local] Arguments caught_by : simpl never.

(** Deriving the key neither reads nor changes the world. *)
Lemma serialize_cache_keys_pure use_dill keys (w w0 : world) :
  serialize_cache_keys rt use_dill keys w
  = (fst (serialize_cache_keys rt use_dill keys w0), w).
Proof.
  unfold serialize_cache_keys, try_except, raise, lift, dumps.
  destruct (truthy use_dill); [destruct (dill rt) as [d|] |]; simpl;
    repeat case_match; simplify_eq; reflexivity.
Qed.

(** What lines 71-76 do, given what the function and the pickler
    answer. *)
Lemma recompute_run path args kwargs (w : world) :
  recompute path args kwargs w
  = match func args kwargs (user w) with
    | (Returns v, u') =>
        match pickler rt v with
        | Pickled data =>
            (Returns v,
             World (<[path := data]> (files w)) u'
                   (trace w ++ [Call args kwargs; Write path data]))
        | PickleFails flushed e =>
            (Raises e,
             World (<[path := flushed]> (files w)) u'
                   (trace w ++ [Call args kwargs; Write path flushed]))
        end
    | (Raises e, u') =>
        (Raises e, World (files w) u' (trace w ++ [Call args kwargs]))
    end.
Proof.
  unfold_recompute.
  unfold bind, call_func, store, with_lock, write_file, raise, ret.
  destruct (func args kwargs (user w)) as [[v|e] u']; simpl; [|reflexivity].
  destruct (pickler rt v) as [data|flushed e]; simpl;
    rewrite <- app_assoc; reflexivity.
Qed.

(** Every path through the wrapper once the key is derived. *)
Lemma wrapper_run args use_cache refresh_cache cache_nonce use_dill kwargs
    ks (w : world) :
  serialize_cache_keys rt use_dill (signature args kwargs cache_nonce) w
  = (Returns ks, w) ->
  let path := cache_path_of ks in
  let seen evs := World (files w) (user w) (trace w ++ evs) in
  wrapper args use_cache refresh_cache cache_nonce use_dill kwargs w
  = if truthy use_cache && negb (truthy refresh_cache) then
      match files w !! path with
      | Some data =>
          match unpickler rt data with
          | Returns v => (Returns v, seen [Exists path; Read path])
          | Raises e =>
              if caught_by [EOFError; PickleError] e then
                recompute path args kwargs
                  (seen [Exists path; Read path;
                         Warning (corrupted_message path)])
              else (Raises e, seen [Exists path; Read path])
          end
      | None => recompute path args kwargs (seen [Exists path])
      end
    else recompute path args kwargs w.
Proof.
  intros Hkey path seen. unfold_wrapper.
  unfold bind at 1. rewrite Hkey. fold path.
  destruct (truthy use_cache && negb (truthy refresh_cache)).
  - unfold lookup, os_path_exists, with_lock, try_except, open_rb,
      logging_warning, emit, lift, ret, bind. simpl.
    destruct (files w !! path) as [data|] eqn:Hfile; simpl.
    + rewrite Hfile. destruct (unpickler rt data) as [v|e]; simpl.
      * subst seen. simpl. rewrite <- app_assoc. reflexivity.
      * destruct (caught_by [EOFError; PickleError] e); subst seen; simpl;
          rewrite <- !app_assoc; reflexivity.
    + reflexivity.
  - unfold bind at 1. reflexivity.
Qed.

(** A call whose key cannot be derived stops there. *)
Lemma wrapper_key_error args use_cache refresh_cache cache_nonce use_dill
    kwargs e (w : world) :
  serialize_cache_keys rt use_dill (signature args kwargs cache_nonce) w
  = (Raises e, w) ->
  wrapper args use_cache refresh_cache cache_nonce use_dill kwargs w
  = (Raises e, w).
Proof.
  intros Hkey. unfold_wrapper. unfold bind at 1.
  rewrite Hkey. reflexivity.
Qed.

Lemma serialize_cache_keys_cases use_dill keys (w : world) :
  (exists ks, serialize_cache_keys rt use_dill keys w = (Returns ks, w))
  \/ (exists e, serialize_cache_keys rt use_dill keys w = (Raises e, w)).
Proof.
  rewrite (serialize_cache_keys_pure use_dill keys w w).
  destruct (fst (serialize_cache_keys rt use_dill keys w)); eauto.
Qed.

Lemma events_since_app (w : world) f u evs :
  events_since w (World f u (trace w ++ evs)) = evs.
Proof. unfold events_since. simpl. apply drop_app_length. Qed.

Lemma events_since_refl (w : world) : events_since w w = [].
Proof. unfold events_since. apply drop_all. Qed.

(** What a run of lines 71-76 adds to the trace and changes in the
    files: one execution of the function, then at most one write, at
    [path]. *)
Lemma recompute_effects path args kwargs (w : world) :
  let run := recompute path args kwargs w in
  exists evs,
    trace (snd run) = (trace w ++ Call args kwargs :: evs)%list
    /\ (evs = [] \/ exists data, evs = [Write path data])
    /\ forall q, q <> path -> files (snd run) !! q = files w !! q.
Proof.
  rewrite recompute_run.
  destruct (func args kwargs (user w)) as [[v|e] u'];
    [destruct (pickler rt v) as [data|flushed e] |]; simpl;
    eexists; (split; [reflexivity|]); split; eauto;
    intros q Hq; rewrite ?lookup_insert_ne by congruence; reflexivity.
Qed.

(** C7.  With [use_cache] true and [refresh_cache] true, a call whose key
    can be derived asks nothing of the store before it executes the
    wrapped function: the first event it adds is the execution, and no
    file is tested or read afterwards either, whatever record the store
    holds.  When the function returns a result that can be pickled, that
    result is returned and its pickle is what the record file of the key
    holds afterwards, whatever it held before. *)
Theorem refresh_recomputes_and_overwrites args use_cache refresh_cache
    cache_nonce use_dill kwargs ks (w : world) :
  truthy use_cache = true ->
  truthy refresh_cache = true ->
  serialize_cache_keys rt use_dill (signature args kwargs cache_nonce) w
  = (Returns ks, w) ->
  let run :=
    wrapper args use_cache refresh_cache cache_nonce use_dill kwargs w in
  (exists rest,
      events_since w (snd run) = Call args kwargs :: rest
      /\ forall p, ~ In (Exists p) rest /\ ~ In (Read p) rest)
  /\ forall v u' data,
       func args kwargs (user w) = (Returns v, u') ->
       pickler rt v = Pickled data ->
       fst run = Returns v
       /\ files (snd run) = <[cache_path_of ks := data]> (files w)
       /\ user (snd run) = u'
       /\ events_since w (snd run)
          = [Call args kwargs; Write (cache_path_of ks) data].
Proof.
  intros Huse Hrefresh Hkey run. subst run.
  rewrite (wrapper_run _ _ _ _ _ _ ks) by assumption.
  rewrite Huse, Hrefresh. simpl.
  rewrite recompute_run. unfold events_since. split.
  - destruct (func args kwargs (user w)) as [[v|e] u'];
      [destruct (pickler rt v) as [data|flushed e] |]; simpl;
      rewrite drop_app_length; eexists; (split; [reflexivity|]);
      intros p; simpl; intuition congruence.
  - intros v u' data Hf Hp. rewrite Hf, Hp. simpl.
    rewrite drop_app_length. auto.
Qed.

(** One call touches one file, the one its key names, and executes the
    function on the arguments it was given. *)
Lemma wrapper_effects args use_cache refresh_cache cache_nonce use_dill
    kwargs ks (w : world) :
  serialize_cache_keys rt use_dill (signature args kwargs cache_nonce) w
  = (Returns ks, w) ->
  let run :=
    wrapper args use_cache refresh_cache cache_nonce use_dill kwargs w in
  Forall (touches (cache_path_of ks) args kwargs) (events_since w (snd run))
  /\ forall q, q <> cache_path_of ks ->
       files (snd run) !! q = files w !! q.
Proof.
  intros Hkey run. subst run.
  rewrite (wrapper_run _ _ _ _ _ _ ks) by assumption.
  unfold events_since.
  destruct (truthy use_cache && negb (truthy refresh_cache));
    [destruct (files w !! cache_path_of ks) as [old|];
     [destruct (unpickler rt old) as [v|e];
      [|destruct (caught_by [EOFError; PickleError] e)] |] |];
    rewrite ?recompute_run; simpl;
    try (destruct (func args kwargs (user w)) as [[v'|e'] u'];
         [destruct (pickler rt v') as [data|flushed e''] |]; simpl);
    rewrite <- ?app_assoc, ?drop_app_length, ?drop_all;
    (split;
     [repeat constructor
     |intros q Hq; rewrite ?lookup_insert_ne by congruence; reflexivity]).
Qed.

(** C8.  With [use_dill] true in a runtime where dill cannot be
    imported, the call raises the import error at once: the world is
    left as it was, so nothing was pickled with the default serializer
    into a key, no file was asked for, and the function was not
    executed. *)
Theorem missing_dill_is_an_error args use_cache refresh_cache cache_nonce
    use_dill kwargs (w : world) :
  truthy use_dill = true ->
  dill rt = None ->
  wrapper args use_cache refresh_cache cache_nonce use_dill kwargs w
  = (Raises
       (Exn ImportError
          "Dill is not installed. Please install it to use the use_dill option."),
     w).
Proof.
  intros Hdill Hnone. apply wrapper_key_error.
  unfold serialize_cache_keys. rewrite Hdill, Hnone. reflexivity.
Qed.

(** C6.  A value that the pickler encodes, to bytes that the unpickler
    reads back as that value, is what [lookup] answers for a key right
    after [store] was given that value for that key. *)
Theorem store_then_lookup key v data (w : world) :
  pickler rt v = Pickled data ->
  unpickler rt data = Returns v ->
  let path := record_path directory key in
  let stored := store rt path v w in
  fst stored = Returns tt
  /\ fst (lookup rt path (snd stored)) = Returns (Some v).
Proof.
  intros Hdump Hload path stored. subst stored.
  unfold store, lookup, with_lock, write_file, os_path_exists, try_except,
    open_rb, lift, ret, bind.
  rewrite Hdump. simpl. split; [reflexivity|].
  rewrite lookup_insert_eq. simpl. rewrite lookup_insert_eq.
  rewrite Hload. reflexivity.
Qed.

(** C5.  Two calls with the same arguments, [use_cache] true and
    [refresh_cache] false, starting where the key has no record: the
    first executes the function and writes the record, the second reads
    the record and returns the stored result; over both calls the
    function is executed exactly once. *)
Theorem second_call_is_served_from_the_record args use_cache refresh_cache
    cache_nonce use_dill kwargs ks v u' data (w : world) :
  truthy use_cache = true ->
  truthy refresh_cache = false ->
  serialize_cache_keys rt use_dill (signature args kwargs cache_nonce) w
  = (Returns ks, w) ->
  files w !! cache_path_of ks = None ->
  func args kwargs (user w) = (Returns v, u') ->
  pickler rt v = Pickled data ->
  unpickler rt data = Returns v ->
  let path := cache_path_of ks in
  let first :=
    wrapper args use_cache refresh_cache cache_nonce use_dill kwargs w in
  let second :=
    wrapper args use_cache refresh_cache cache_nonce use_dill kwargs
      (snd first) in
  fst first = Returns v
  /\ events_since w (snd first)
     = [Exists path; Call args kwargs; Write path data]
  /\ fst second = Returns v
  /\ events_since (snd first) (snd second) = [Exists path; Read path]
  /\ user (snd second) = u'
  /\ invocations (events_since w (snd second)) = 1%nat.
Proof.
  intros Huse Hrefresh Hkey Hmiss Hf Hdump Hload path first second.
  fold path in Hmiss.
  assert (Hfirst : first
    = (Returns v,
       World (<[path := data]> (files w)) u'
             (trace w ++ [Exists path; Call args kwargs; Write path data]))).
  { subst first. rewrite (wrapper_run _ _ _ _ _ _ ks) by assumption.
    rewrite Huse, Hrefresh. simpl. fold path. rewrite Hmiss.
    rewrite recompute_run. simpl. rewrite Hf, Hdump.
    rewrite <- app_assoc. reflexivity. }
  assert (Hsecond : second
    = (Returns v,
       World (<[path := data]> (files w)) u'
             ((trace w ++ [Exists path; Call args kwargs; Write path data])
              ++ [Exists path; Read path]))).
  { subst second. rewrite Hfirst. simpl.
    rewrite (wrapper_run _ _ _ _ _ _ ks).
    - rewrite Huse, Hrefresh. simpl. fold path.
      rewrite lookup_insert_eq, Hload. reflexivity.
    - rewrite (serialize_cache_keys_pure _ _ _ w), Hkey. reflexivity. }
  rewrite Hsecond, Hfirst. unfold events_since. simpl.
  rewrite !drop_app_length.
  rewrite <- app_assoc, drop_app_length. auto 10.
Qed.

(** C2, as the code has it.  When the pickler fails on the value,
    [store] raises the pickler's error, and by then the file of the key
    has been opened for writing: it holds what the pickler had flushed
    before failing and nothing of what it held before.  The files of
    other keys are as they were. *)
Theorem failed_store_leaves_the_flushed_bytes path v flushed e (w : world) :
  pickler rt v = PickleFails flushed e ->
  let run := store rt path v w in
  fst run = Raises e
  /\ files (snd run) !! path = Some flushed
  /\ forall q, q <> path -> files (snd run) !! q = files w !! q.
Proof.
  intros Hfail run. subst run.
  unfold store, with_lock, write_file, raise, bind. rewrite Hfail. simpl.
  split; [reflexivity|]. split; [apply lookup_insert_eq|].
  intros q Hq. apply lookup_insert_ne. congruence.
Qed.

(** Which serializer is used depends on [use_dill] through its truth
    value only. *)
Lemma serialize_cache_keys_truthy use_dill use_dill' keys (w : world) :
  truthy use_dill = truthy use_dill' ->
  serialize_cache_keys rt use_dill keys w
  = serialize_cache_keys rt use_dill' keys w.
Proof. intros H. unfold serialize_cache_keys. rewrite H. reflexivity. Qed.

Lemma hex_digit_not_sep n : Hashlib.hex_digit n <> "/"%char.
Proof.
  unfold Hashlib.hex_digit. generalize (Z.to_nat n). intros k.
  do 17 (destruct k as [|k]; [simpl; discriminate|]).
  simpl. destruct k; discriminate.
Qed.

Lemma filename_is_relative ks :
  String.prefix "/" (Hashlib.hexdigest ks ++ ".pkl") = false.
Proof.
  unfold Hashlib.hexdigest.
  pose proof (md5_length ks) as Hlen.
  destruct (Hashlib.md5 ks) as [|b rest]; [discriminate|].
  pose proof (hex_digit_not_sep (Z_of_byte b / 16)) as Hne.
  cbn [Hashlib.hex].
  match goal with
  | |- String.prefix _ (String ?c ?s ++ ?t) = _ =>
      change (String c s ++ t) with (String c (s ++ t));
      change (String.prefix "/" (String c (s ++ t)))
        with (if Ascii.ascii_dec "/" c
              then String.prefix "" (s ++ t) else false)
  end.
  destruct (Ascii.ascii_dec "/" (Hashlib.hex_digit (Z_of_byte b / 16)))
    as [Heq|_]; [congruence | reflexivity].
Qed.

(** C9, as the code has it.  The key is the 32 hexadecimal digits of
    the 16-byte MD5 digest of the serialized Call Signature, and the
    record file is [os.path.join(directory, key + ".pkl")]: the key,
    then the extension [.pkl], under the directory.  A call writes no
    other file and leaves every other file as it was. *)
Theorem record_file_is_hexdigest_pkl args use_cache refresh_cache
    cache_nonce use_dill kwargs ks (w : world) :
  serialize_cache_keys rt use_dill (signature args kwargs cache_nonce) w
  = (Returns ks, w) ->
  let key := Hashlib.hexdigest ks in
  let run :=
    wrapper args use_cache refresh_cache cache_nonce use_dill kwargs w in
  length (Hashlib.md5 ks) = 16%nat
  /\ String.length key = 32%nat
  /\ cache_path_of ks = os_path_join directory (key ++ ".pkl")
  /\ (directory <> "" -> ends_with_sep directory = false ->
      cache_path_of ks = directory ++ "/" ++ key ++ ".pkl")
  /\ (forall p data,
        In (Write p data) (events_since w (snd run)) ->
        p = cache_path_of ks)
  /\ (forall q, q <> cache_path_of ks ->
        files (snd run) !! q = files w !! q).
Proof.
  intros Hkey key run.
  destruct (wrapper_effects args use_cache refresh_cache cache_nonce
              use_dill kwargs ks w Hkey) as [Hevents Hframe].
  split; [apply md5_length|]. split; [apply hexdigest_length|].
  split; [reflexivity|]. split; [|split; [|exact Hframe]].
  - intros Hdir Hsep. subst key.
    unfold_cache_path_of. unfold record_path, os_path_join.
    rewrite (filename_is_relative ks), Hsep.
    destruct (String.eqb_spec directory ""); [contradiction|reflexivity].
  - intros p data Hin. rewrite Forall_forall in Hevents.
    apply list_elem_of_In in Hin. exact (Hevents _ Hin).
Qed.





(** A record whose unpickling raises [EOFError] or a [PickleError] is a
    miss: the wrapper logs a warning that names the file and goes on to
    execute the function and overwrite the record. *)
Lemma unreadable_record_is_recomputed args use_cache refresh_cache
    cache_nonce use_dill kwargs ks old e (w : world) :
  truthy use_cache = true ->
  truthy refresh_cache = false ->
  serialize_cache_keys rt use_dill (signature args kwargs cache_nonce) w
  = (Returns ks, w) ->
  files w !! cache_path_of ks = Some old ->
  unpickler rt old = Raises e ->
  caught_by [EOFError; PickleError] e = true ->
  let path := cache_path_of ks in
  wrapper args use_cache refresh_cache cache_nonce use_dill kwargs w
  = recompute path args kwargs
      (World (files w) (user w)
         (trace w ++ [Exists path; Read path;
                      Warning (corrupted_message path)])).
Proof.
  intros Huse Hrefresh Hkey Hfile Hload Hcaught path.
  rewrite (wrapper_run _ _ _ _ _ _ ks) by assumption.
  rewrite Huse, Hrefresh. simpl. fold path in Hfile |- *.
  rewrite Hfile, Hload, Hcaught. reflexivity.
Qed.

(** A record whose unpickling raises anything else makes the call
    raise it: no warning, no execution, the record left as it is. *)
Lemma other_unpickling_error_reaches_the_caller args use_cache
    refresh_cache cache_nonce use_dill kwargs ks old e (w : world) :
  truthy use_cache = true ->
  truthy refresh_cache = false ->
  serialize_cache_keys rt use_dill (signature args kwargs cache_nonce) w
  = (Returns ks, w) ->
  files w !! cache_path_of ks = Some old ->
  unpickler rt old = Raises e ->
  caught_by [EOFError; PickleError] e = false ->
  let path := cache_path_of ks in
  wrapper args use_cache refresh_cache cache_nonce use_dill kwargs w
  = (Raises e,
     World (files w) (user w) (trace w ++ [Exists path; Read path])).
Proof.
  intros Huse Hrefresh Hkey Hfile Hload Hcaught path.
  rewrite (wrapper_run _ _ _ _ _ _ ks) by assumption.
  rewrite Huse, Hrefresh. simpl. fold path in Hfile |- *.
  rewrite Hfile, Hload, Hcaught. reflexivity.
Qed.

(** With [use_cache] false the wrapper does not look the record up, and
    then does what it does with [refresh_cache] true: it executes the
    function and stores the result. *)
Lemma use_cache_false_recomputes args use_cache refresh_cache cache_nonce
    use_dill kwargs ks (w : world) :
  truthy use_cache = false ->
  serialize_cache_keys rt use_dill (signature args kwargs cache_nonce) w
  = (Returns ks, w) ->
  wrapper args use_cache refresh_cache cache_nonce use_dill kwargs w
  = recompute (cache_path_of ks) args kwargs w.
Proof.
  intros Huse Hkey. rewrite (wrapper_run _ _ _ _ _ _ ks) by assumption.
  rewrite Huse. reflexivity.
Qed.

(** ** More of what the wrapper does *)

(** A hit (lines 62-67): with [use_cache] true and [refresh_cache]
    false, a record that unpickles is returned as the result.  The
    function is not executed, its state is untouched, and no file is
    written: the wrapper returns what the record says, whatever the
    function would return now. *)
Theorem hit_returns_the_record_without_executing args use_cache
    refresh_cache cache_nonce use_dill kwargs ks data v (w : world) :
  truthy use_cache = true ->
  truthy refresh_cache = false ->
  serialize_cache_keys rt use_dill (signature args kwargs cache_nonce) w
  = (Returns ks, w) ->
  files w !! cache_path_of ks = Some data ->
  unpickler rt data = Returns v ->
  let path := cache_path_of ks in
  let run :=
    wrapper args use_cache refresh_cache cache_nonce use_dill kwargs w in
  fst run = Returns v
  /\ events_since w (snd run) = [Exists path; Read path]
  /\ invocations (events_since w (snd run)) = 0%nat
  /\ files (snd run) = files w
  /\ user (snd run) = user w.
Proof.
  intros Huse Hrefresh Hkey Hfile Hload path run. subst run.
  rewrite (wrapper_run _ _ _ _ _ _ ks) by assumption.
  rewrite Huse, Hrefresh. simpl. fold path in Hfile |- *.
  rewrite Hfile, Hload. simpl. rewrite events_since_app. auto.
Qed.

(** A record that [pickle.load] rejects with [EOFError] or a
    [pickle.PickleError] (lines 68-74): the wrapper logs the warning that
    names the file, executes the function and replaces the record with
    the pickle of the fresh result. *)
Theorem unreadable_record_is_a_logged_miss args use_cache refresh_cache
    cache_nonce use_dill kwargs ks old e v u' data (w : world) :
  truthy use_cache = true ->
  truthy refresh_cache = false ->
  serialize_cache_keys rt use_dill (signature args kwargs cache_nonce) w
  = (Returns ks, w) ->
  files w !! cache_path_of ks = Some old ->
  unpickler rt old = Raises e ->
  caught_by [EOFError; PickleError] e = true ->
  func args kwargs (user w) = (Returns v, u') ->
  pickler rt v = Pickled data ->
  let path := cache_path_of ks in
  let run :=
    wrapper args use_cache refresh_cache cache_nonce use_dill kwargs w in
  fst run = Returns v
  /\ events_since w (snd run)
     = [Exists path; Read path; Warning (corrupted_message path);
        Call args kwargs; Write path data]
  /\ files (snd run) = <[path := data]> (files w)
  /\ user (snd run) = u'.
Proof.
  intros Huse Hrefresh Hkey Hfile Hload Hcaught Hf Hdump path run.
  subst run.
  rewrite (wrapper_run _ _ _ _ _ _ ks) by assumption.
  rewrite Huse, Hrefresh. simpl. fold path in Hfile |- *.
  rewrite Hfile, Hload, Hcaught, recompute_run. simpl.
  rewrite Hf, Hdump. simpl.
  rewrite <- app_assoc. rewrite events_since_app. auto.
Qed.

(** Lines 71-74 in this order: when the function raises, the wrapper
    raises the same exception and no record is written, on every path
    that reaches the function. *)
Theorem function_error_stores_nothing args use_cache refresh_cache
    cache_nonce use_dill kwargs ks e u' (w : world) :
  serialize_cache_keys rt use_dill (signature args kwargs cache_nonce) w
  = (Returns ks, w) ->
  func args kwargs (user w) = (Raises e, u') ->
  let run :=
    wrapper args use_cache refresh_cache cache_nonce use_dill kwargs w in
  files (snd run) = files w
  /\ stores (events_since w (snd run)) = 0%nat
  /\ (In (Call args kwargs) (events_since w (snd run)) ->
      fst run = Raises e /\ user (snd run) = u').
Proof.
  intros Hkey Hf run. subst run.
  rewrite (wrapper_run _ _ _ _ _ _ ks) by assumption.
  destruct (truthy use_cache && negb (truthy refresh_cache));
    [destruct (files w !! cache_path_of ks) as [old|];
     [destruct (unpickler rt old) as [v|e'];
      [|destruct (caught_by [EOFError; PickleError] e')] |] |];
    rewrite ?recompute_run; simpl; rewrite ?Hf; simpl;
    rewrite <- ?app_assoc, ?events_since_app; simpl;
    (split; [reflexivity|]); (split; [reflexivity|]);
    intros Hin; simpl in Hin; intuition congruence.
Qed.

(** The files after a call are the files before it, or those with the
    record of the call replaced. *)
Lemma wrapper_files args use_cache refresh_cache cache_nonce use_dill kwargs
    ks (w : world) :
  serialize_cache_keys rt use_dill (signature args kwargs cache_nonce) w
  = (Returns ks, w) ->
  let run :=
    wrapper args use_cache refresh_cache cache_nonce use_dill kwargs w in
  files (snd run) = files w
  \/ exists data, files (snd run) = <[cache_path_of ks := data]> (files w).
Proof.
  intros Hkey run. subst run.
  rewrite (wrapper_run _ _ _ _ _ _ ks) by assumption.
  destruct (truthy use_cache && negb (truthy refresh_cache));
    [destruct (files w !! cache_path_of ks) as [old|];
     [destruct (unpickler rt old) as [v|e];
      [|destruct (caught_by [EOFError; PickleError] e)] |] |];
    rewrite ?recompute_run; simpl;
    try (destruct (func args kwargs (user w)) as [[v'|e'] u'];
         [destruct (pickler rt v') as [data|flushed e''] |]; simpl);
    eauto.
Qed.

(** No eviction: whatever the options, the arguments and the outcome,
    every file that exists before a call exists after it. *)
Theorem no_file_is_removed args use_cache refresh_cache cache_nonce use_dill
    kwargs (w : world) q :
  is_Some (files w !! q) ->
  is_Some
    (files
       (snd (wrapper args use_cache refresh_cache cache_nonce use_dill
               kwargs w)) !! q).
Proof.
  intros Hq.
  destruct (serialize_cache_keys_cases use_dill
              (signature args kwargs cache_nonce) w) as [[ks Hkey]|[e Hkey]].
  - destruct (wrapper_files args use_cache refresh_cache cache_nonce use_dill
                kwargs ks w Hkey) as [Hsame|[data Hput]].
    + rewrite Hsame. exact Hq.
    + rewrite Hput. apply lookup_insert_is_Some.
      destruct (decide (cache_path_of ks = q)); auto.
  - rewrite (wrapper_key_error _ _ _ _ _ _ e) by assumption. exact Hq.
Qed.

(** One call executes the function at most once, and writes a record at
    most once and only after having executed the function: what a call
    adds to the trace is some tests, reads and warnings, with no
    execution and no write among them, followed by nothing, or by the
    execution alone, or by the execution and then one write. *)
Theorem at_most_one_execution_and_one_store args use_cache refresh_cache
    cache_nonce use_dill kwargs (w : world) :
  let run :=
    wrapper args use_cache refresh_cache cache_nonce use_dill kwargs w in
  (exists before after,
      events_since w (snd run) = (before ++ after)%list
      /\ invocations before = 0%nat
      /\ stores before = 0%nat
      /\ (after = []
          \/ after = [Call args kwargs]
          \/ exists path data, after = [Call args kwargs; Write path data]))
  /\ (invocations (events_since w (snd run)) <= 1)%nat
  /\ (stores (events_since w (snd run))
      <= invocations (events_since w (snd run)))%nat.
Proof.
  intros run. subst run.
  destruct (serialize_cache_keys_cases use_dill
              (signature args kwargs cache_nonce) w) as [[ks Hkey]|[e Hkey]].
  - rewrite (wrapper_run _ _ _ _ _ _ ks) by assumption.
    destruct (truthy use_cache && negb (truthy refresh_cache));
      [destruct (files w !! cache_path_of ks) as [old|];
       [destruct (unpickler rt old) as [v|e];
        [|destruct (caught_by [EOFError; PickleError] e)] |] |];
      rewrite ?recompute_run; simpl;
      try (destruct (func args kwargs (user w)) as [[v'|e'] u'];
           [destruct (pickler rt v') as [data|flushed e''] |]; simpl);
      rewrite <- ?app_assoc, ?events_since_app; simpl;
      (split; [|unfold invocations, stores; simpl; lia]);
      match goal with
      | |- context [Warning ?m] =>
          exists [Exists (cache_path_of ks); Read (cache_path_of ks);
                  Warning m]
      | |- context [Read ?p] => exists [Exists p; Read p]
      | |- context [Exists ?p] => exists [Exists p]
      | |- _ => exists []
      end;
      eexists; (split; [reflexivity|]);
      (split; [reflexivity|]); (split; [reflexivity|]); eauto.
  - rewrite (wrapper_key_error _ _ _ _ _ _ e) by assumption. simpl.
    rewrite events_since_refl.
    split; [|unfold invocations, stores; simpl; lia].
    exists [], []. auto.
Qed.


(** The options are tested, not compared with [True] and [False]: two
    calls whose [use_cache], [refresh_cache] and [use_dill] have the same
    truth values do the same, so [use_cache=0] or [use_cache=None] is
    [use_cache=False], and [refresh_cache=1] is [refresh_cache=True]. *)
Theorem options_count_by_truth_value args use_cache use_cache'
    refresh_cache refresh_cache' cache_nonce use_dill use_dill' kwargs
    (w : world) :
  truthy use_cache = truthy use_cache' ->
  truthy refresh_cache = truthy refresh_cache' ->
  truthy use_dill = truthy use_dill' ->
  wrapper args use_cache refresh_cache cache_nonce use_dill kwargs w
  = wrapper args use_cache' refresh_cache' cache_nonce use_dill' kwargs w.
Proof.
  intros Huse Hrefresh Hdill. unfold_wrapper.
  unfold bind at 1 3.
  rewrite (serialize_cache_keys_truthy _ _ _ _ Hdill), Huse, Hrefresh.
  reflexivity.
Qed.

Lemma wrapper_from_cache_keys args use_cache refresh_cache cache_nonce
    use_dill kwargs (w : world) :
  wrapper args use_cache refresh_cache cache_nonce use_dill kwargs w
  = match serialize_cache_keys rt use_dill
            (signature args kwargs cache_nonce) w with
    | (Returns ks, w') =>
        from_cache_keys rt directory func ks args use_cache refresh_cache
          kwargs w'
    | (Raises e, w') => (Raises e, w')
    end.
Proof. reflexivity. Qed.

(** [use_dill] changes how the key is derived and nothing else.  Where
    dill can be imported and encodes the Call Signature, a call with
    [use_dill] true and the same call with [use_dill] false run the same
    lines 57-76, the one on dill's bytes and the other on pickle's: when
    the two byte strings are the same, the two calls do the same, whatever
    the other options and the store.  On every path, what the call with
    [use_dill] true writes is the record file of dill's key, and it holds
    what [pickle.dump] wrote of the function's result (line 74), all of
    it or what was flushed before pickle failed. *)
Theorem use_dill_changes_the_key_only args use_cache refresh_cache
    cache_nonce use_dill use_dill' kwargs dill_dumps ks ks' (w : world) :
  dill rt = Some dill_dumps ->
  truthy use_dill = true ->
  truthy use_dill' = false ->
  dill_dumps (signature args kwargs cache_nonce) = Pickled ks ->
  pickler rt (signature args kwargs cache_nonce) = Pickled ks' ->
  let with_dill :=
    wrapper args use_cache refresh_cache cache_nonce use_dill kwargs w in
  let without :=
    wrapper args use_cache refresh_cache cache_nonce use_dill' kwargs w in
  with_dill
  = from_cache_keys rt directory func ks args use_cache refresh_cache
      kwargs w
  /\ without
     = from_cache_keys rt directory func ks' args use_cache refresh_cache
         kwargs w
  /\ (ks = ks' -> with_dill = without)
  /\ forall p data,
       In (Write p data) (events_since w (snd with_dill)) ->
       p = cache_path_of ks
       /\ exists v u',
            func args kwargs (user w) = (Returns v, u')
            /\ (pickler rt v = Pickled data
                \/ exists e, pickler rt v = PickleFails data e).
Proof.
  intros Hsome Hdill Hdill' Hks Hks' with_dill without.
  assert (Hkey :
    serialize_cache_keys rt use_dill (signature args kwargs cache_nonce) w
    = (Returns ks, w)).
  { unfold serialize_cache_keys, try_except, lift, dumps.
    rewrite Hdill, Hsome, Hks. reflexivity. }
  assert (Hkey' :
    serialize_cache_keys rt use_dill' (signature args kwargs cache_nonce) w
    = (Returns ks', w)).
  { unfold serialize_cache_keys, lift, dumps.
    rewrite Hdill', Hks'. reflexivity. }
  assert (Hwith : with_dill
    = from_cache_keys rt directory func ks args use_cache refresh_cache
        kwargs w).
  { subst with_dill. rewrite wrapper_from_cache_keys, Hkey. reflexivity. }
  assert (Hwithout : without
    = from_cache_keys rt directory func ks' args use_cache refresh_cache
        kwargs w).
  { subst without. rewrite wrapper_from_cache_keys, Hkey'. reflexivity. }
  split; [exact Hwith|]. split; [exact Hwithout|].
  split; [intros <-; rewrite Hwith, Hwithout; reflexivity|].
  subst with_dill. rewrite (wrapper_run _ _ _ _ _ _ ks) by assumption.
  destruct (truthy use_cache && negb (truthy refresh_cache));
    [destruct (files w !! cache_path_of ks) as [old|];
     [destruct (unpickler rt old) as [v|e];
      [|destruct (caught_by [EOFError; PickleError] e)] |] |];
    rewrite ?recompute_run; simpl;
    try (destruct (func args kwargs (user w)) as [[v'|e'] u'];
         [destruct (pickler rt v') as [data'|flushed e''] eqn:Hdump |];
         simpl);
    rewrite <- ?app_assoc, ?events_since_app; simpl;
    intros p data Hin;
    repeat (destruct Hin as [Hin|Hin]; [try discriminate|]);
    try contradiction;
    injection Hin as <- <-; (split; [reflexivity|]);
    eexists; eexists; (split; [reflexivity|]); eauto.
Qed.

(** An error of [pickle.dumps] on the Call Signature (an argument that
    cannot be pickled) is raised by the call as it is, before anything
    else happens: no file is tested, read or written and the function is
    not executed. *)
Theorem unpicklable_argument_fails_before_the_call args use_cache
    refresh_cache cache_nonce use_dill kwargs flushed e (w : world) :
  truthy use_dill = false ->
  pickler rt (signature args kwargs cache_nonce) = PickleFails flushed e ->
  wrapper args use_cache refresh_cache cache_nonce use_dill kwargs w
  = (Raises e, w).
Proof.
  intros Hdill Hfail. apply wrapper_key_error.
  unfold serialize_cache_keys, lift, dumps. rewrite Hdill, Hfail.
  reflexivity.
Qed.

(** After a call with [refresh_cache] true has stored a result that
    unpickles to itself, a call with the same arguments, [use_cache] true
    and [refresh_cache] false returns that result from the record: the
    function is executed by the first call only. *)
Theorem refreshed_record_serves_the_next_call args use_cache refresh_cache
    use_cache' refresh_cache' cache_nonce use_dill kwargs ks v u' data
    (w : world) :
  truthy refresh_cache = true ->
  truthy use_cache' = true ->
  truthy refresh_cache' = false ->
  serialize_cache_keys rt use_dill (signature args kwargs cache_nonce) w
  = (Returns ks, w) ->
  func args kwargs (user w) = (Returns v, u') ->
  pickler rt v = Pickled data ->
  unpickler rt data = Returns v ->
  let path := cache_path_of ks in
  let first :=
    wrapper args use_cache refresh_cache cache_nonce use_dill kwargs w in
  let second :=
    wrapper args use_cache' refresh_cache' cache_nonce use_dill kwargs
      (snd first) in
  fst first = Returns v
  /\ fst second = Returns v
  /\ events_since (snd first) (snd second) = [Exists path; Read path]
  /\ files (snd second) = <[path := data]> (files w)
  /\ user (snd second) = u'
  /\ invocations (events_since w (snd second)) = 1%nat.
Proof.
  intros Hrefresh Huse' Hrefresh' Hkey Hf Hdump Hload path first second.
  assert (Hfirst : first
    = (Returns v,
       World (<[path := data]> (files w)) u'
             (trace w ++ [Call args kwargs; Write path data]))).
  { subst first. rewrite (wrapper_run _ _ _ _ _ _ ks) by assumption.
    rewrite Hrefresh, andb_false_r. fold path.
    rewrite recompute_run, Hf, Hdump. reflexivity. }
  assert (Hsecond : second
    = (Returns v,
       World (<[path := data]> (files w)) u'
             ((trace w ++ [Call args kwargs; Write path data])
              ++ [Exists path; Read path]))).
  { subst second. rewrite Hfirst. simpl.
    rewrite (wrapper_run _ _ _ _ _ _ ks).
    - rewrite Huse', Hrefresh'. simpl. fold path.
      rewrite lookup_insert_eq, Hload. reflexivity.
    - rewrite (serialize_cache_keys_pure _ _ _ w), Hkey. reflexivity. }
  rewrite Hsecond, Hfirst. unfold events_since. simpl.
  rewrite !drop_app_length.
  rewrite <- app_assoc, drop_app_length. auto 10.
Qed.

Lemma keyword_absent name default keywords :
  ~ In name (map fst keywords) -> keyword name default keywords = default.
Proof.
  induction keywords as [|[k x] rest IH]; simpl; [reflexivity|].
  intros Hnot. destruct (String.eqb_spec k name) as [Heq|_].
  - exfalso. apply Hnot. left. exact Heq.
  - apply IH. intros Hin. apply Hnot. right. exact Hin.
Qed.

Lemma remaining_kwargs_all keywords :
  (forall name, In name control_options -> ~ In name (map fst keywords)) ->
  remaining_kwargs keywords = keywords.
Proof.
  unfold remaining_kwargs.
  induction keywords as [|[k x] rest IH]; simpl; [reflexivity|].
  intros Hnone.
  assert (Hk : is_control_option k = false).
  { destruct (is_control_option k) eqn:Hk; [|reflexivity].
    unfold is_control_option in Hk.
    apply existsb_exists in Hk as (name & Hin & Heq).
    apply String.eqb_eq in Heq. subst name.
    exfalso. apply (Hnone k Hin). left. reflexivity. }
  rewrite Hk. simpl. f_equal. apply IH.
  intros name Hin Hrest. apply (Hnone name Hin). right. exact Hrest.
Qed.

(** Line 44: a call that names none of the four options is a call with
    [use_cache=True], [refresh_cache=False], [cache_nonce=None] and
    [use_dill=False], and all its keyword arguments go to the function
    and into the key, in the order given. *)
Theorem defaults_when_no_option_is_given args keywords (w : world) :
  (forall name, In name control_options -> ~ In name (map fst keywords)) ->
  call_wrapper args keywords w
  = wrapper args (VBool true) (VBool false) VNone (VBool false) keywords w.
Proof.
  intros Hnone. unfold_call_wrapper.
  rewrite (remaining_kwargs_all keywords Hnone).
  rewrite !keyword_absent by (apply Hnone; simpl; auto).
  reflexivity.
Qed.

Lemma append_assoc (a b c : string) : (a ++ b) ++ c = a ++ b ++ c.
Proof.
  induction a as [|x a IH]; [reflexivity|].
  change (String x ((a ++ b) ++ c) = String x (a ++ b ++ c)).
  rewrite IH. reflexivity.
Qed.

(** Line 60 for a directory written with its final slash:
    [os.path.join] adds no second one, so [hashcache("/tmp/hashcache/")]
    and [hashcache("/tmp/hashcache")] name the same record files. *)
Theorem final_slash_names_the_same_file ks :
  directory <> "" ->
  ends_with_sep directory = false ->
  record_path (directory ++ "/") (Hashlib.hexdigest ks) = cache_path_of ks.
Proof.
  intros Hdir Hsep. unfold_cache_path_of.
  unfold record_path, os_path_join.
  rewrite (filename_is_relative ks), Hsep.
  destruct (String.eqb_spec directory ""); [contradiction|].
  assert (Hends : forall s, ends_with_sep (s ++ "/") = true).
  { induction s as [|c s IH]; [reflexivity|].
    change (String c s ++ "/") with (String c (s ++ "/")).
    simpl. rewrite IH. destruct (s ++ "/") eqn:Hs; [|reflexivity].
    destruct s; discriminate. }
  rewrite Hends, orb_true_r. simpl.
  rewrite append_assoc. reflexivity.
Qed.

End Properties.

(** ** The key of a call whose arguments share objects *)

Section Sharing.
Import Graph.
Local Open Scope list_scope.

Lemma save_tuple_eq id items memo :
  save (OTuple id items) memo
  = match memo_get id memo with
    | Some i => Some (get i, memo)
    | None =>
        match items with
        | [] => Some ([x29], memo)
        | _ =>
            match save_all items memo with
            | Some (parts, memo') =>
                match memo_get id memo' with
                | Some i => Some (pop_tuple parts i, memo')
                | None => Some (Pickle.save_tuple parts, memo' ++ [id])
                end
            | None => None
            end
        end
    end.
Proof. reflexivity. Qed.

Lemma save_list_eq id items memo :
  save (OList id items) memo
  = match memo_get id memo with
    | Some i => Some (get i, memo)
    | None =>
        match save_all items (memo ++ [id]) with
        | Some (parts, memo') =>
            Some (x5d :: x94 :: Pickle.batch x61 x65 parts, memo')
        | None => None
        end
    end.
Proof. reflexivity. Qed.

Lemma save_dict_eq id items memo :
  save (ODict id items) memo
  = match memo_get id memo with
    | Some i => Some (get i, memo)
    | None =>
        match save_items items (memo ++ [id]) with
        | Some (parts, memo') =>
            Some (x7d :: x94 :: Pickle.batch x73 x75 parts, memo')
        | None => None
        end
    end.
Proof. reflexivity. Qed.



Section Renaming.
Variable r : positive -> positive.
Hypothesis r_injective : forall i j, r i = r j -> i = j.







End Renaming.

(** ** Without sharing *)

Lemma memo_get_none id memo : memo_get id memo = None <-> id ∉ memo.
Proof.
  induction memo as [|x memo IH]; simpl.
  - split; [intros _; apply not_elem_of_nil | reflexivity].
  - rewrite not_elem_of_cons. destruct (Pos.eqb_spec x id) as [->|Hne].
    + split; [discriminate | intros [Hne _]; contradiction].
    + destruct (memo_get id memo); simpl.
      * split; [discriminate | intros [_ Hin]; apply IH in Hin; discriminate].
      * split; [intros _; split; [congruence | apply IH; reflexivity]
               | reflexivity].
Qed.




Lemma save_all_unshared items :
  Forall (fun o => forall memo,
            unshared memo (identities o) ->
            as_tree memo (identities o) (save o memo) (Pickle.save (erase o)))
         items ->
  forall memo,
    unshared memo (flat_map identities items) ->
    parts_as_tree memo (flat_map identities items)
      (save_all items memo) (tree_save_all (map erase items)).
Proof.
  induction 1 as [|x items Hx _ IH]; intros memo [Hdup Hmemo].
  - exists []. split; [intros i Hi; exact Hi|]. simpl. rewrite app_nil_r.
    reflexivity.
  - simpl in Hdup, Hmemo. apply NoDup_app in Hdup as (Hdx & Hdisjoint & Hdi).
    destruct (Hx memo) as (extra & Hextra & Hsave).
    { split; [exact Hdx|]. intros i Hi. apply Hmemo.
      apply elem_of_app. left. exact Hi. }
    simpl. rewrite Hsave.
    destruct (Pickle.save (erase x)) as [p|]; simpl.
    + destruct (IH (memo ++ extra)) as (extra' & Hextra' & Hrest).
      { split; [exact Hdi|]. intros i Hi Hin.
        apply elem_of_app in Hin as [Hin|Hin].
        - apply (Hmemo i); [apply elem_of_app; right; exact Hi | exact Hin].
        - apply (Hdisjoint i); [apply Hextra; exact Hin | exact Hi]. }
      rewrite Hrest.
      exists (extra ++ extra'). split.
      * intros i Hi. apply elem_of_app.
        apply elem_of_app in Hi as [Hi|Hi]; auto.
      * destruct (tree_save_all (map erase items)); simpl;
          [rewrite app_assoc|]; reflexivity.
    + exists []. split; [intros i Hi; inversion Hi | reflexivity].
Qed.

Lemma save_items_unshared items :
  Forall (fun kx =>
            (forall memo,
               unshared memo (identities (fst kx)) ->
               as_tree memo (identities (fst kx)) (save (fst kx) memo)
                 (Pickle.save (erase (fst kx))))
            /\ (forall memo,
                  unshared memo (identities (snd kx)) ->
                  as_tree memo (identities (snd kx)) (save (snd kx) memo)
                    (Pickle.save (erase (snd kx)))))
         items ->
  forall memo,
    let ids :=
      flat_map (fun kx => identities (fst kx) ++ identities (snd kx)) items in
    unshared memo ids ->
    parts_as_tree memo ids (save_items items memo)
      (tree_save_items
         (map (fun kx => (erase (fst kx), erase (snd kx))) items)).
Proof.
  induction 1 as [|[k x] items [Hk Hx] _ IH]; intros memo ids [Hdup Hmemo];
    subst ids.
  - exists []. split; [intros i Hi; exact Hi|]. simpl. rewrite app_nil_r.
    reflexivity.
  - simpl in Hdup, Hmemo, Hk, Hx |- *.
    apply NoDup_app in Hdup as (Hdkx & Hdisjoint & Hdi).
    apply NoDup_app in Hdkx as (Hdk & Hkx & Hdx).
    destruct (Hk memo) as (extra & Hextra & Hsave).
    { split; [exact Hdk|]. intros i Hi. apply Hmemo.
      rewrite !elem_of_app. auto. }
    rewrite Hsave.
    destruct (Pickle.save (erase k)) as [pk|]; simpl;
      [|exists []; split; [intros i Hi; inversion Hi | reflexivity]].
    destruct (Hx (memo ++ extra)) as (extra1 & Hextra1 & Hsave1).
    { split; [exact Hdx|]. intros i Hi Hin.
      apply elem_of_app in Hin as [Hin|Hin].
      - apply (Hmemo i); [rewrite !elem_of_app; auto | exact Hin].
      - apply (Hkx i); [apply Hextra; exact Hin | exact Hi]. }
    rewrite Hsave1.
    destruct (Pickle.save (erase x)) as [px|]; simpl;
      [|exists []; split; [intros i Hi; inversion Hi | reflexivity]].
    destruct (IH ((memo ++ extra) ++ extra1)) as (extra2 & Hextra2 & Hrest).
    { split; [exact Hdi|]. intros i Hi Hin.
      rewrite !elem_of_app in Hin. destruct Hin as [[Hin|Hin]|Hin].
      - apply (Hmemo i); [rewrite !elem_of_app; auto | exact Hin].
      - apply (Hdisjoint i); [|exact Hi].
        apply elem_of_app. left. apply Hextra. exact Hin.
      - apply (Hdisjoint i); [|exact Hi].
        apply elem_of_app. right. apply Hextra1. exact Hin. }
    rewrite Hrest.
    exists (extra ++ extra1 ++ extra2). split.
    + intros i Hi. rewrite !elem_of_app in Hi |- *.
      destruct Hi as [Hi|[Hi|Hi]]; auto.
    + destruct (tree_save_items _); simpl;
        [rewrite !app_assoc|]; reflexivity.
Qed.

(** An object none of whose nodes occurs twice is written as the tree
    it is: no reference to the memo is written. *)
Lemma save_unshared o :
  forall memo,
    unshared memo (identities o) ->
    as_tree memo (identities o) (save o memo) (Pickle.save (erase o)).
Proof.
  induction o as [| b | n | id s | id items IH | id items IH | id items IH | id]
    using object_induction; intros memo [Hdup Hmemo].
  - exists []. split; [intros i Hi; exact Hi|]. simpl. rewrite app_nil_r.
    reflexivity.
  - exists []. split; [intros i Hi; exact Hi|].
    destruct b; simpl; rewrite app_nil_r; reflexivity.
  - exists []. split; [intros i Hi; exact Hi|]. simpl. rewrite app_nil_r.
    reflexivity.
  - assert (Hid : memo_get id memo = None).
    { apply memo_get_none, Hmemo. simpl. apply list_elem_of_here. }
    exists [id]. split; [intros i Hi; exact Hi|]. simpl. rewrite Hid.
    reflexivity.
  - assert (Hid : memo_get id memo = None).
    { apply memo_get_none, Hmemo. simpl. apply list_elem_of_here. }
    rewrite save_tuple_eq, Hid. simpl in Hdup, Hmemo.
    apply NoDup_cons in Hdup as [Hfresh Hdup].
    destruct items as [|x items].
    { exists []. split; [intros i Hi; inversion Hi|].
      simpl. rewrite app_nil_r. reflexivity. }
    destruct (save_all_unshared _ IH memo) as (extra & Hextra & Hsave).
    { split; [exact Hdup|]. intros i Hi. apply Hmemo.
      apply list_elem_of_further. exact Hi. }
    rewrite Hsave.
    change (Pickle.save (erase (OTuple id (x :: items))))
      with (option_map Pickle.save_tuple
              (tree_save_all (map erase (x :: items)))).
    destruct (tree_save_all (map erase (x :: items))) as [parts|]; simpl.
    + assert (Hmiss : memo_get id (memo ++ extra) = None).
      { apply memo_get_none. intros Hin.
        apply elem_of_app in Hin as [Hin|Hin].
        - apply (Hmemo id); [apply list_elem_of_here | exact Hin].
        - apply Hfresh, Hextra. exact Hin. }
      rewrite Hmiss. exists (extra ++ [id]). split.
      * intros i Hi. apply elem_of_app in Hi as [Hi|Hi].
        -- apply list_elem_of_further, Hextra. exact Hi.
        -- apply list_elem_of_singleton in Hi as ->. apply list_elem_of_here.
      * rewrite app_assoc. reflexivity.
    + exists []. split; [intros i Hi; inversion Hi | reflexivity].
  - assert (Hid : memo_get id memo = None).
    { apply memo_get_none, Hmemo. simpl. apply list_elem_of_here. }
    rewrite save_list_eq, Hid. simpl in Hdup, Hmemo.
    apply NoDup_cons in Hdup as [Hfresh Hdup].
    destruct (save_all_unshared _ IH (memo ++ [id])) as (extra & Hextra & Hsave).
    { split; [exact Hdup|]. intros i Hi Hin.
      apply elem_of_app in Hin as [Hin|Hin].
      - apply (Hmemo i); [apply list_elem_of_further; exact Hi | exact Hin].
      - apply list_elem_of_singleton in Hin as ->. contradiction. }
    rewrite Hsave.
    change (Pickle.save (erase (OList id items)))
      with (option_map (fun parts => x5d :: x94 :: Pickle.batch x61 x65 parts)
              (tree_save_all (map erase items))).
    destruct (tree_save_all (map erase items)) as [parts|]; simpl.
    + exists (id :: extra). split.
      * intros i Hi. apply elem_of_cons in Hi as [->|Hi].
        -- apply list_elem_of_here.
        -- apply list_elem_of_further, Hextra. exact Hi.
      * rewrite <- app_assoc. reflexivity.
    + exists []. split; [intros i Hi; inversion Hi | reflexivity].
  - assert (Hid : memo_get id memo = None).
    { apply memo_get_none, Hmemo. simpl. apply list_elem_of_here. }
    rewrite save_dict_eq, Hid. simpl in Hdup, Hmemo.
    apply NoDup_cons in Hdup as [Hfresh Hdup].
    destruct (save_items_unshared _ IH (memo ++ [id]))
      as (extra & Hextra & Hsave).
    { split; [exact Hdup|]. intros i Hi Hin.
      apply elem_of_app in Hin as [Hin|Hin].
      - apply (Hmemo i); [apply list_elem_of_further; exact Hi | exact Hin].
      - apply list_elem_of_singleton in Hin as ->. contradiction. }
    rewrite Hsave.
    change (Pickle.save (erase (ODict id items)))
      with (option_map (fun parts => x7d :: x94 :: Pickle.batch x73 x75 parts)
              (tree_save_items
                 (map (fun kx => (erase (fst kx), erase (snd kx))) items))).
    destruct (tree_save_items _) as [parts|]; simpl.
    + exists (id :: extra). split.
      * intros i Hi. apply elem_of_cons in Hi as [->|Hi].
        -- apply list_elem_of_here.
        -- apply list_elem_of_further, Hextra. exact Hi.
      * rewrite <- app_assoc. reflexivity.
    + exists []. split; [intros i Hi; inversion Hi | reflexivity].
  - assert (Hid : memo_get id memo = None).
    { apply memo_get_none, Hmemo. simpl. apply list_elem_of_here. }
    exists []. split; [intros i Hi; inversion Hi|]. simpl. rewrite Hid.
    reflexivity.
Qed.

(** The pickle of an object without sharing is the pickle of its
    value. *)
Lemma dump_unshared o :
  NoDup (identities o) -> dump o = Pickle.dump (erase o).
Proof.
  intros Hdup. unfold dump, Pickle.dump.
  destruct (save_unshared o []) as (extra & _ & Hsave).
  { split; [exact Hdup|]. intros i _. apply not_elem_of_nil. }
  rewrite Hsave. destruct (Pickle.save (erase o)); reflexivity.
Qed.



(** The Call Signature of the wrapper is the Call Signature on objects
    with the identities forgotten, and for a call none of whose objects
    occurs twice, the bytes of the key are those the wrapper derives
    with [Pickle.dump]. *)
Lemma erase_cache_keys list_id tuple_id dict_id name args kwargs cache_nonce :
  erase (cache_keys list_id tuple_id dict_id name args kwargs cache_nonce)
  = signature (snd name) (map erase args) (erase_kwargs kwargs)
      (erase cache_nonce).
Proof.
  unfold cache_keys, signature, kwargs_dict, keyword_items, erase_kwargs.
  simpl. rewrite !map_map. reflexivity.
Qed.
End Sharing.

Lemma unshared_call_key {U} list_id tuple_id dict_id name args kwargs
    cache_nonce use_dill (w : world (U := U)) :
  truthy use_dill = false ->
  NoDup (Graph.identities
           (Graph.cache_keys list_id tuple_id dict_id name args kwargs
              cache_nonce)) ->
  Graph.serialize_cache_keys None use_dill
    (Graph.cache_keys list_id tuple_id dict_id name args kwargs cache_nonce)
  = fst (serialize_cache_keys cpython use_dill
           (signature (snd name) (map Graph.erase args)
              (Graph.erase_kwargs kwargs) (Graph.erase cache_nonce)) w).
Proof.
  intros Hdill Hdup.
  unfold Graph.serialize_cache_keys, serialize_cache_keys.
  rewrite Hdill. unfold Graph.dumps, lift, dumps. simpl.
  rewrite (dump_unshared _ Hdup), erase_cache_keys. reflexivity.
Qed.

(** ** The decorated [square] on CPython *)

Example square_4_key :
  fst (serialize_cache_keys cpython (VBool false)
         (signature "square" [VInt 4] [] VNone) fresh)
  = Returns square_4_keys
  /\ cache_path_of "/tmp/hashcache" square_4_keys = square_4_path.
Proof. split; vm_compute; reflexivity. Qed.

(** C1.  What the code does with [use_cache=False]:
    [square(4, use_cache=False)] executes [square], returns 16 and
    tests and reads no file, as the claim says; but it then writes the
    record of the call.  In an empty cache directory the record file is
    created, and where the directory holds a record of the call (here one
    that says 99) the record is overwritten. *)
Theorem use_cache_false_still_stores :
  let call := cached_square [VInt 4] [("use_cache", VBool false)] in
  (fst (call fresh) = Returns (VInt 16)
   /\ events_since fresh (snd (call fresh))
      = [Call [VInt 4] []; Write square_4_path pickle_16]
   /\ files fresh !! square_4_path = None
   /\ files (snd (call fresh)) !! square_4_path = Some pickle_16)
  /\ (fst (call stale) = Returns (VInt 16)
      /\ events_since stale (snd (call stale))
         = [Call [VInt 4] []; Write square_4_path pickle_16]
      /\ files stale !! square_4_path = Some pickle_99
      /\ files (snd (call stale)) !! square_4_path = Some pickle_16).
Proof. vm_compute. repeat split; reflexivity. Qed.

(** The record cut to no bytes is the case the code handles: a warning,
    then the function is executed and the record rewritten. *)
Example zero_byte_record_is_recomputed :
  let run := cached_square [VInt 4] [] zero_bytes in
  fst run = Returns (VInt 16)
  /\ events_since zero_bytes (snd run)
     = [Exists square_4_path; Read square_4_path;
        Warning (corrupted_message square_4_path);
        Call [VInt 4] []; Write square_4_path pickle_16]
  /\ files (snd run) !! square_4_path = Some pickle_16.
Proof. vm_compute. repeat split; reflexivity. Qed.

(** C3.  What the code does with a record that fails to deserialize
    with an error other than [EOFError] and [pickle.PickleError].  The
    record of [square(4)] with one bit flipped in its protocol byte makes
    [pickle.load] raise [ValueError]; the call [square(4)] raises it to
    the caller: no warning is logged, [square] is not executed, and the
    record is left as it is. *)
Theorem corrupted_record_raises_to_the_caller :
  let run := cached_square [VInt 4] [] bit_flipped in
  let error := Exn ValueError "unsupported pickle protocol" in
  files bit_flipped !! square_4_path = Some [x80; x84; x4b; x10; x2e]
  /\ Pickle.load [x80; x84; x4b; x10; x2e] = Raises error
  /\ caught_by [EOFError; PickleError] error = false
  /\ fst run = Raises error
  /\ events_since bit_flipped (snd run)
     = [Exists square_4_path; Read square_4_path]
  /\ invocations (events_since bit_flipped (snd run)) = 0%nat
  /\ files (snd run) !! square_4_path = Some [x80; x84; x4b; x10; x2e].
Proof. vm_compute. repeat split; reflexivity. Qed.

(** C2, refuted as stated.  The record of [square(4)] says 99 when the
    store is given a lock object for that key: the store fails, and the
    record file is left with no bytes. *)
Lemma failed_store_truncates_the_record :
  let run := store cpython square_4_path (VObject 1) stale in
  files stale !! square_4_path = Some pickle_99
  /\ fst run = Raises (Exn TypeError "cannot pickle '_thread.lock' object")
  /\ files (snd run) !! square_4_path = Some []
  /\ files (snd run) <> files stale.
Proof.
  cbv zeta. repeat split; try (vm_compute; reflexivity).
  intros Hsame.
  apply (f_equal (fun m : gmap string bytes => m !! square_4_path)) in Hsame.
  vm_compute in Hsame. discriminate.
Qed.

Lemma failed_store_witness :
  let run := store cpython square_4_path (VObject 1) stale in
  let e := Exn TypeError "cannot pickle '_thread.lock' object" in
  pickler cpython (VObject 1) = PickleFails [] e
  /\ fst run = Raises e
  /\ files (snd run) !! square_4_path = Some []
  /\ files (snd run) !! "/tmp/hashcache/other.pkl"
     = files stale !! "/tmp/hashcache/other.pkl".
Proof.
  cbv zeta. split; [reflexivity|].
  destruct (failed_store_leaves_the_flushed_bytes cpython square_4_path
              (VObject 1) []
              (Exn TypeError "cannot pickle '_thread.lock' object") stale
              eq_refl) as (Hraise & Hfile & Hframe).
  split; [exact Hraise|]. split; [exact Hfile|].
  apply Hframe. discriminate.
Defined.


(** [square(4)] twice in an empty cache directory: 16 both times, and
    [square] executed once. *)
Lemma square_twice_witness :
  let first := cached_square [VInt 4] [] fresh in
  let second := cached_square [VInt 4] [] (snd first) in
  files fresh !! cache_path_of "/tmp/hashcache" square_4_keys = None
  /\ square [VInt 4] [] (user fresh) = (Returns (VInt 16), 1%nat)
  /\ fst first = Returns (VInt 16)
  /\ fst second = Returns (VInt 16)
  /\ events_since (snd first) (snd second)
     = [Exists square_4_path; Read square_4_path]
  /\ user (snd second) = 1%nat
  /\ invocations (events_since fresh (snd second)) = 1%nat.
Proof.
  cbv zeta. split; [reflexivity|]. split; [reflexivity|].
  destruct (second_call_is_served_from_the_record cpython "/tmp/hashcache"
              "square" square [VInt 4] (VBool true) (VBool false) VNone
              (VBool false) [] square_4_keys (VInt 16) 1%nat pickle_16 fresh
              eq_refl eq_refl eq_refl eq_refl eq_refl eq_refl eq_refl)
    as (Hfirst & _ & Hsecond & Hread & Hcount & Honce).
  split; [exact Hfirst|]. split; [exact Hsecond|].
  split; [exact Hread|]. split; [exact Hcount | exact Honce].
Defined.

(** Storing 16 under the key of [square(4)], then looking it up. *)
Lemma store_then_lookup_witness :
  let path := record_path "/tmp/hashcache" "d92e7d5fd5f75ffc222c2bcc992a13a8" in
  let stored := store cpython path (VInt 16) fresh in
  pickler cpython (VInt 16) = Pickled pickle_16
  /\ unpickler cpython pickle_16 = Returns (VInt 16)
  /\ fst stored = Returns tt
  /\ fst (lookup cpython path (snd stored)) = Returns (Some (VInt 16)).
Proof.
  cbv zeta. split; [reflexivity|]. split; [reflexivity|].
  exact (store_then_lookup cpython "/tmp/hashcache"
           "d92e7d5fd5f75ffc222c2bcc992a13a8" (VInt 16) pickle_16 fresh
           eq_refl eq_refl).
Defined.

(** [square(4, refresh_cache=True)] where the record says 99: [square]
    is executed, 16 is returned and the record says 16. *)
Lemma refresh_witness :
  let run := cached_square [VInt 4] [("refresh_cache", VBool true)] stale in
  unpickler cpython pickle_99 = Returns (VInt 99)
  /\ files stale !! square_4_path = Some pickle_99
  /\ fst run = Returns (VInt 16)
  /\ files (snd run) = <[square_4_path := pickle_16]> (files stale)
  /\ events_since stale (snd run)
     = [Call [VInt 4] []; Write square_4_path pickle_16].
Proof.
  cbv zeta. split; [reflexivity|]. split; [reflexivity|].
  destruct (refresh_recomputes_and_overwrites cpython "/tmp/hashcache"
              "square" square [VInt 4] (VBool true) (VBool true) VNone
              (VBool false) [] square_4_keys stale eq_refl eq_refl eq_refl)
    as [_ Hstore].
  destruct (Hstore (VInt 16) 1%nat pickle_16 eq_refl eq_refl)
    as (Hresult & Hfiles & _ & Hevents).
  split; [exact Hresult|]. split; [exact Hfiles | exact Hevents].
Defined.

(** [square(4, use_dill=True)] on CPython without dill. *)
Lemma missing_dill_witness :
  truthy (VBool true) = true
  /\ dill cpython = None
  /\ cached_square [VInt 4] [("use_dill", VBool true)] fresh
     = (Raises
          (Exn ImportError
             "Dill is not installed. Please install it to use the use_dill option."),
        fresh).
Proof.
  split; [reflexivity|]. split; [reflexivity|].
  exact (missing_dill_is_an_error cpython "/tmp/hashcache" "square" square
           [VInt 4] (VBool true) (VBool false) VNone (VBool true) [] fresh
           eq_refl eq_refl).
Defined.

(** C9, refuted as stated.  After [square(4)] in an empty cache directory
    the record is the file [<key>.pkl]; there is no file [<key>.cache]. *)
Lemma record_file_is_not_dot_cache :
  let run := cached_square [VInt 4] [] fresh in
  let key := Hashlib.hexdigest square_4_keys in
  fst (serialize_cache_keys cpython (VBool false)
         (signature "square" [VInt 4] [] VNone) fresh)
  = Returns square_4_keys
  /\ key = "d92e7d5fd5f75ffc222c2bcc992a13a8"
  /\ events_since fresh (snd run)
     = [Exists ("/tmp/hashcache/" ++ key ++ ".pkl");
        Call [VInt 4] [];
        Write ("/tmp/hashcache/" ++ key ++ ".pkl") pickle_16]
  /\ files (snd run) !! ("/tmp/hashcache/" ++ key ++ ".pkl") = Some pickle_16
  /\ files (snd run) !! ("/tmp/hashcache/" ++ key ++ ".cache") = None.
Proof. vm_compute. repeat split; reflexivity. Qed.

Lemma record_file_witness :
  let run := cached_square [VInt 4] [] fresh in
  let key := Hashlib.hexdigest square_4_keys in
  serialize_cache_keys cpython (VBool false)
    (signature "square" [VInt 4] [] VNone) fresh
  = (Returns square_4_keys, fresh)
  /\ ends_with_sep "/tmp/hashcache" = false
  /\ String.length key = 32%nat
  /\ cache_path_of "/tmp/hashcache" square_4_keys
     = "/tmp/hashcache" ++ "/" ++ key ++ ".pkl"
  /\ files (snd run) !! "/tmp/hashcache/other.pkl"
     = files fresh !! "/tmp/hashcache/other.pkl".
Proof.
  cbv zeta. split; [reflexivity|]. split; [reflexivity|].
  destruct (record_file_is_hexdigest_pkl cpython "/tmp/hashcache" "square"
              square [VInt 4] (VBool true) (VBool false) VNone (VBool false)
              [] square_4_keys fresh eq_refl)
    as (_ & Hlength & _ & Hpath & _ & Hframe).
  split; [exact Hlength|].
  split; [apply Hpath; [discriminate | reflexivity]|].
  apply (Hframe "/tmp/hashcache/other.pkl"). vm_compute. discriminate.
Defined.


(** ** More runs of the decorated [square] *)

(** Lines 36-37: a directory that is not a string is refused with a
    [TypeError] when the decorator is made, before any function is
    wrapped; this is what [@hashcache] written without its parentheses
    runs into, the function being passed as the directory. *)
Theorem hashcache_rejects_what_is_not_a_string directory :
  (forall d, directory <> VStr d) ->
  exists message, hashcache directory = Raises (Exn TypeError message).
Proof.
  intros Hnot. destruct directory; simpl; eauto.
  exfalso. eapply Hnot. reflexivity.
Qed.

Lemma not_a_string_witness :
  (forall d, VObject 1 <> VStr d)
  /\ exists message, hashcache (VObject 1) = Raises (Exn TypeError message).
Proof.
  split; [discriminate|].
  apply hashcache_rejects_what_is_not_a_string. discriminate.
Defined.

(** [square(4)] where the record says 99: the answer is 99. *)
Lemma hit_witness :
  let run := cached_square [VInt 4] [] stale in
  files stale !! cache_path_of "/tmp/hashcache" square_4_keys = Some pickle_99
  /\ unpickler cpython pickle_99 = Returns (VInt 99)
  /\ fst run = Returns (VInt 99)
  /\ invocations (events_since stale (snd run)) = 0%nat
  /\ files (snd run) = files stale
  /\ user (snd run) = 0%nat.
Proof.
  cbv zeta. split; [reflexivity|]. split; [reflexivity|].
  destruct (hit_returns_the_record_without_executing cpython
              "/tmp/hashcache" "square" square [VInt 4] (VBool true)
              (VBool false) VNone (VBool false) [] square_4_keys pickle_99
              (VInt 99) stale eq_refl eq_refl eq_refl eq_refl eq_refl)
    as (Hresult & _ & Hnone & Hfiles & Huser).
  split; [exact Hresult|]. split; [exact Hnone|].
  split; [exact Hfiles | exact Huser].
Defined.

(** [square(4)] where the record has no bytes. *)
Lemma logged_miss_witness :
  let run := cached_square [VInt 4] [] zero_bytes in
  unpickler cpython [] = Raises (Exn EOFError "Ran out of input")
  /\ caught_by [EOFError; PickleError] (Exn EOFError "Ran out of input") = true
  /\ fst run = Returns (VInt 16)
  /\ events_since zero_bytes (snd run)
     = [Exists square_4_path; Read square_4_path;
        Warning (corrupted_message square_4_path);
        Call [VInt 4] []; Write square_4_path pickle_16]
  /\ user (snd run) = 1%nat.
Proof.
  cbv zeta. split; [reflexivity|]. split; [reflexivity|].
  destruct (unreadable_record_is_a_logged_miss cpython "/tmp/hashcache"
              "square" square [VInt 4] (VBool true) (VBool false) VNone
              (VBool false) [] square_4_keys []
              (Exn EOFError "Ran out of input") (VInt 16) 1%nat pickle_16
              zero_bytes eq_refl eq_refl eq_refl eq_refl eq_refl eq_refl
              eq_refl eq_refl)
    as (Hresult & Hevents & _ & Huser).
  split; [exact Hresult|]. split; [exact Hevents | exact Huser].
Defined.

(** [square(4)] where the record has a flipped bit. *)
Lemma other_error_witness :
  let error := Exn ValueError "unsupported pickle protocol" in
  unpickler cpython [x80; x84; x4b; x10; x2e] = Raises error
  /\ caught_by [EOFError; PickleError] error = false
  /\ cached_square [VInt 4] [] bit_flipped
     = (Raises error,
        World (files bit_flipped) 0%nat
          [Exists square_4_path; Read square_4_path]).
Proof.
  cbv zeta. split; [reflexivity|]. split; [reflexivity|].
  exact (other_unpickling_error_reaches_the_caller cpython "/tmp/hashcache"
           "square" square [VInt 4] (VBool true) (VBool false) VNone
           (VBool false) [] square_4_keys [x80; x84; x4b; x10; x2e]
           (Exn ValueError "unsupported pickle protocol") bit_flipped
           eq_refl eq_refl eq_refl eq_refl eq_refl eq_refl).
Defined.

(** [square(4, 5)]: the call of [square] raises, nothing is stored. *)
Lemma function_error_witness :
  let run := cached_square [VInt 4; VInt 5] [] fresh in
  let error := Exn TypeError "square() got unexpected arguments" in
  square [VInt 4; VInt 5] [] 0%nat = (Raises error, 0%nat)
  /\ In (Call [VInt 4; VInt 5] []) (events_since fresh (snd run))
  /\ fst run = Raises error
  /\ files (snd run) = files fresh
  /\ stores (events_since fresh (snd run)) = 0%nat.
Proof.
  cbv zeta. split; [reflexivity|].
  eassert (Hkey :
    serialize_cache_keys cpython (VBool false)
      (signature "square" [VInt 4; VInt 5] [] VNone) fresh
    = (Returns _, fresh)) by (vm_compute; reflexivity).
  destruct (function_error_stores_nothing cpython "/tmp/hashcache" "square"
              square [VInt 4; VInt 5] (VBool true) (VBool false) VNone
              (VBool false) [] _
              (Exn TypeError "square() got unexpected arguments") 0%nat
              fresh Hkey eq_refl) as (Hfiles & Hstores & Hcall).
  assert (Hin :
    In (Call [VInt 4; VInt 5] [])
       (events_since fresh
          (snd (cached_square [VInt 4; VInt 5] [] fresh)))).
  { vm_compute. right. left. reflexivity. }
  split; [exact Hin|].
  split; [exact (proj1 (Hcall Hin))|].
  split; [exact Hfiles | exact Hstores].
Defined.

(** The record of [square(4)] outlives [square(5, refresh_cache=True)]
    and [square(4, refresh_cache=True)]. *)
Lemma no_file_is_removed_witness :
  is_Some (files stale !! square_4_path)
  /\ is_Some
       (files
          (snd (cached_square [VInt 5] [("refresh_cache", VBool true)] stale))
        !! square_4_path)
  /\ is_Some
       (files
          (snd (cached_square [VInt 4] [("refresh_cache", VBool true)] stale))
        !! square_4_path).
Proof.
  assert (Hrecord : is_Some (files stale !! square_4_path))
    by (exists pickle_99; reflexivity).
  split; [exact Hrecord|]. split.
  - exact (no_file_is_removed cpython "/tmp/hashcache" "square" square
             [VInt 5] (VBool true) (VBool true) VNone (VBool false) [] stale
             square_4_path Hrecord).
  - exact (no_file_is_removed cpython "/tmp/hashcache" "square" square
             [VInt 4] (VBool true) (VBool true) VNone (VBool false) [] stale
             square_4_path Hrecord).
Defined.

(** [square(4, use_cache=0)] is [square(4, use_cache=False)]. *)
Lemma truth_value_witness :
  truthy (VInt 0) = truthy (VBool false)
  /\ cached_square [VInt 4] [("use_cache", VInt 0)] stale
     = cached_square [VInt 4] [("use_cache", VBool false)] stale.
Proof.
  split; [reflexivity|].
  exact (options_count_by_truth_value cpython "/tmp/hashcache" "square"
           square [VInt 4] (VInt 0) (VBool false) (VBool false)
           (VBool false) VNone (VBool false) (VBool false) [] stale
           eq_refl eq_refl eq_refl).
Defined.

(** [square(4, use_dill=True)] and [square(4)] in an empty cache
    directory, where dill is installed: the same run, and the record is
    the pickle of 16. *)
Lemma use_dill_witness :
  let with_dill :=
    call_wrapper cpython_with_dill "/tmp/hashcache" "square" square [VInt 4]
      [("use_dill", VBool true)] fresh in
  let without :=
    call_wrapper cpython_with_dill "/tmp/hashcache" "square" square [VInt 4]
      [] fresh in
  dill cpython_with_dill = Some Pickle.dump
  /\ Pickle.dump (signature "square" [VInt 4] [] VNone) = Pickled square_4_keys
  /\ with_dill = without
  /\ fst with_dill = Returns (VInt 16)
  /\ events_since fresh (snd with_dill)
     = [Exists square_4_path; Call [VInt 4] [];
        Write square_4_path pickle_16].
Proof.
  cbv zeta. split; [reflexivity|]. split; [reflexivity|].
  destruct (use_dill_changes_the_key_only cpython_with_dill "/tmp/hashcache"
              "square" square [VInt 4] (VBool true) (VBool false) VNone
              (VBool true) (VBool false) [] Pickle.dump square_4_keys
              square_4_keys fresh eq_refl eq_refl eq_refl eq_refl eq_refl)
    as (_ & _ & Hsame & _).
  split; [exact (Hsame eq_refl)|].
  split; vm_compute; reflexivity.
Defined.

(** [square(lock)]: the lock cannot be pickled into the key. *)
Lemma unpicklable_argument_witness :
  let error := Exn TypeError "cannot pickle '_thread.lock' object" in
  pickler cpython (signature "square" [VObject 1] [] VNone)
  = PickleFails [] error
  /\ cached_square [VObject 1] [] fresh = (Raises error, fresh).
Proof.
  cbv zeta. split; [reflexivity|].
  exact (unpicklable_argument_fails_before_the_call cpython "/tmp/hashcache"
           "square" square [VObject 1] (VBool true) (VBool false) VNone
           (VBool false) [] []
           (Exn TypeError "cannot pickle '_thread.lock' object") fresh
           eq_refl eq_refl).
Defined.

(** [square(4, refresh_cache=True)] where the record says 99, then
    [square(4)]. *)
Lemma refresh_then_call_witness :
  let first := cached_square [VInt 4] [("refresh_cache", VBool true)] stale in
  let second := cached_square [VInt 4] [] (snd first) in
  files stale !! square_4_path = Some pickle_99
  /\ fst first = Returns (VInt 16)
  /\ fst second = Returns (VInt 16)
  /\ events_since (snd first) (snd second)
     = [Exists square_4_path; Read square_4_path]
  /\ invocations (events_since stale (snd second)) = 1%nat.
Proof.
  cbv zeta. split; [reflexivity|].
  destruct (refreshed_record_serves_the_next_call cpython "/tmp/hashcache"
              "square" square [VInt 4] (VBool true) (VBool true) (VBool true)
              (VBool false) VNone (VBool false) [] square_4_keys (VInt 16)
              1%nat pickle_16 stale
              eq_refl eq_refl eq_refl eq_refl eq_refl eq_refl eq_refl)
    as (Hfirst & Hsecond & Hread & _ & _ & Honce).
  split; [exact Hfirst|]. split; [exact Hsecond|].
  split; [exact Hread | exact Honce].
Defined.

(** [square(4, x=1)] names no option. *)
Lemma defaults_witness :
  (forall name, In name control_options -> ~ In name (map fst [("x", VInt 1)]))
  /\ cached_square [VInt 4] [("x", VInt 1)] fresh
     = wrapper cpython "/tmp/hashcache" "square" square [VInt 4]
         (VBool true) (VBool false) VNone (VBool false) [("x", VInt 1)] fresh.
Proof.
  assert (Hnone :
    forall name, In name control_options ->
                 ~ In name (map fst [("x", VInt 1)])).
  { intros name Hin [Hx|[]]. subst name.
    simpl in Hin. intuition discriminate. }
  split; [exact Hnone|].
  exact (defaults_when_no_option_is_given cpython "/tmp/hashcache" "square"
           square [VInt 4] [("x", VInt 1)] fresh Hnone).
Defined.

(** [hashcache("/tmp/hashcache/")] and [hashcache("/tmp/hashcache")]. *)
Lemma final_slash_witness :
  "/tmp/hashcache" <> ""
  /\ ends_with_sep "/tmp/hashcache" = false
  /\ record_path "/tmp/hashcache/" (Hashlib.hexdigest square_4_keys)
     = cache_path_of "/tmp/hashcache" square_4_keys.
Proof.
  split; [discriminate|]. split; [reflexivity|].
  exact (final_slash_names_the_same_file "/tmp/hashcache" square_4_keys
           ltac:(discriminate) eq_refl).
Defined.

(** ** Calls whose arguments share objects *)

(** [f(s, s)] and [f(s, t)] for two equal strings [s] and [t] that are
    two objects: the same arguments as values, and two keys. *)
Example sharing_changes_the_key :
  let s := Graph.OStr 5 "ab" in
  let t := Graph.OStr 6 "ab" in
  let key args :=
    match
      Graph.serialize_cache_keys None (VBool false)
        (Graph.cache_keys 1 2 3 (4%positive, "f") args [] Graph.ONone)
    with
    | Returns ks => Hashlib.hexdigest ks
    | Raises _ => ""
    end in
  Graph.erase s = Graph.erase t
  /\ key [s; s] = "86cd8955056e4d3f255c7a25a6ac227f"
  /\ key [s; t] = "c4dd146a72a6cc51918f9d56b6f45d05".
Proof. vm_compute. repeat split; reflexivity. Qed.

(** [pickle.dumps([s, t, t, s])] for a string [s] and the tuple
    [t = ([],)] after [t[0].append(t)]: the tuple is met again while its
    own item is written. *)
Example pickle_recursive_tuple :
  let s := Graph.OStr 2 "ab" in
  let t := Graph.OTuple 3 [Graph.OList 4 [Graph.OTuple 3 [Graph.OList 4 []]]] in
  match Graph.dump (Graph.OList 1 [s; t; Graph.OTuple 3 []; s]) with
  | Pickled data =>
      Hashlib.hex data
      = "80049518000000000000005d94288c026162945d94680285946130680368036801652e"
  | PickleFails _ _ => False
  end.
Proof. vm_compute. reflexivity. Qed.

